(** * Stock manager: the sale transaction and stock deduction engine

    A shallow embedding of the point-of-sale core of the stock manager:
    the hosted store of [src/lib/database.ts] (inventory, sales, receipts
    and settings tables), the cart builder and the checkout handler of the
    sell page ([addToCart], [updateCartQuantity], [removeFromCart],
    [handleSubmit]), and the settings handlers of the auth context and of
    the settings page.

    Modelling conventions.
    - A price or an amount is a JavaScript [number]: an IEEE-754 binary64
      value ([spec_float] at precision 53), multiplied and added with
      rounding to nearest, ties to even.  A quantity is a whole number
      ([Z]): quantities are parsed with [parseInt] and stored in an INTEGER
      column; where the code multiplies one by a price it is the binary64
      number of that value.
    - The store keeps a number as the decimal numeral [JSON.stringify]
      writes for it, which reads back as the same number; negative zero is
      written as [0], and a number that is not finite as [null].
    - A JavaScript [string] is a [string], read as a sequence of code
      units below 256; [undefined] and [null] are [None].
    - A table with a TEXT PRIMARY KEY that is read and updated by key (the
      inventory) is a finite map from the key to the row; the append-only
      tables (sales, receipts) are lists of rows in insertion order.
    - The timestamp columns (date_added, updated_at, created_at) are
      filled by the store's clock and read by none of the operations below;
      the rows are modelled without them.
    - [generateId ()] reads the clock and [Math.random]: the identifier it
      returns is an input of the operation that calls it.
    - An awaited store call that comes back with an [error] is rethrown by
      the data layer ([if (error) throw error]): such calls return a
      [Result], and the state they leave behind is threaded explicitly.
      The errors modelled are those the tables' constraints raise; a
      request that the store does not answer at all is modelled where the
      code catches it on its own, in [refreshSettings]. *)

From Stdlib Require Import Floats.SpecFloat.
From stdpp Require Import base gmap strings list fin_maps.

Open Scope Z_scope.

(** ** Numbers *)

(** A price or an amount: a JavaScript [number], that is an IEEE-754
    binary64 value.  [x * y] and [x + y] are the exact product and sum
    rounded to nearest, ties to even.  ([spec_float] also has values with
    a mantissa or an exponent out of the format; no statement below
    excludes them.) *)
Definition number : Type := spec_float.

Module Number.

Definition prec : Z := 53.
Definition emax : Z := 1024.

Definition mul (x y : number) : number := SFmul prec emax x y.
Definition add (x y : number) : number := SFadd prec emax x y.

(** The literal [0]. *)
Definition zero : number := S754_zero false.

(** The number that a whole quantity is (the nearest one, past 2^53). *)
Definition ofZ (z : Z) : number := binary_normalize prec emax z 0 false.

(** [Number.isFinite]: neither NaN nor an infinity. *)
Definition isFinite (x : number) : bool :=
  match x with
  | S754_zero _ | S754_finite _ _ _ => true
  | S754_infinity _ | S754_nan => false
  end.

(** What a finite number reads back as once [JSON.stringify] has written
    it: itself, but for negative zero, which is written as [0]. *)
Definition stored (x : number) : number :=
  match x with
  | S754_zero _ => zero
  | _ => x
  end.

(** [JSON.parse (JSON.stringify x)]: a number that is not finite is
    written as [null], here [None]. *)
Definition toJSON (x : number) : option number :=
  if isFinite x then Some (stored x) else None.

End Number.

(** An INTEGER column holds the whole numbers of 32 bits. *)
Definition isInteger32 (z : Z) : bool :=
  (-2147483648 <=? z) && (z <=? 2147483647).

(** ** Data model (the interfaces of [database.ts]) *)

Module InventoryItem.
Record t := mk {
  id : string;
  name : string;
  category : string;
  unitPrice : number;
  quantity : Z;
  lowStockThreshold : Z
}.
End InventoryItem.

Module SaleItem.
Record t := mk {
  itemId : string;
  itemName : string;
  quantity : Z;
  unitPrice : number;
  total : number
}.
End SaleItem.

(** A sale line as the [items] column (JSONB) gives it back, cast to
    [SaleItem]: a number that was not finite when the line was written
    comes back as [null]. *)
Module StoredSaleItem.
Record t := mk {
  itemId : string;
  itemName : string;
  quantity : Z;
  unitPrice : option number;
  total : option number
}.
End StoredSaleItem.

Module Sale.
Record t := mk {
  id : string;
  items : list StoredSaleItem.t;
  totalAmount : number;
  sellerName : string;
  buyerName : string
}.
End Sale.

Module Receipt.
Record t := mk {
  id : string;
  saleId : string;
  businessName : string;
  businessAddress : string;
  items : list StoredSaleItem.t;
  totalAmount : number;
  sellerName : string;
  buyerName : string
}.
End Receipt.

Module AppSettings.
Record t := mk {
  id : string;
  pinHash : option string;
  businessName : string;
  businessAddress : string
}.
End AppSettings.

(** [CartItem extends SaleItem] with the availability known when the line
    was first added. *)
Module CartItem.
Record t := mk {
  itemId : string;
  itemName : string;
  quantity : Z;
  unitPrice : number;
  total : number;
  availableQty : Z
}.
End CartItem.

(** The arguments of [salesDB.add] and [receiptsDB.add]
    ([Omit<_, 'id' | 'createdAt'>]).  A property that the caller's object
    literal does not carry reads as [undefined]. *)
Module NewSale.
Record t := mk {
  items : list SaleItem.t;
  totalAmount : number;
  sellerName : string;
  buyerName : string
}.
End NewSale.

Module NewReceipt.
Record t := mk {
  saleId : string;
  businessName : string;
  businessAddress : option string;
  items : list SaleItem.t;
  totalAmount : number;
  sellerName : string;
  buyerName : string
}.
End NewReceipt.

(** The argument of [inventoryDB.add]
    ([Omit<InventoryItem, 'id' | 'dateAdded' | 'updatedAt'>]). *)
Module NewInventoryItem.
Record t := mk {
  name : string;
  category : string;
  unitPrice : number;
  quantity : Z;
  lowStockThreshold : Z
}.
End NewInventoryItem.

(** The argument of [inventoryDB.update] ([Partial<InventoryItem>]), as
    the function reads it: the five properties it copies when they are not
    [undefined]; it looks at no other. *)
Module InventoryUpdates.
Record t := mk {
  name : option string;
  category : option string;
  unitPrice : option number;
  quantity : option Z;
  lowStockThreshold : option Z
}.
End InventoryUpdates.

(** ** The store *)

Record Database := mkDatabase {
  inventory : gmap string InventoryItem.t;
  sales : list Sale.t;
  receipts : list Receipt.t
}.

(** What [JSON.stringify] makes of a sale line on its way to the store. *)
Definition storedSaleItem (l : SaleItem.t) : StoredSaleItem.t :=
  StoredSaleItem.mk (SaleItem.itemId l) (SaleItem.itemName l) (SaleItem.quantity l)
    (Number.toJSON (SaleItem.unitPrice l)) (Number.toJSON (SaleItem.total l)).

(** Errors the store reports and the data layer rethrows. *)
Inductive PostgrestError :=
| IntegerOutOfRange      (* a value that an INTEGER column cannot hold *)
| NotNullViolation       (* [null] for a NOT NULL column *)
| UniqueViolation        (* INSERT with a primary key already present *)
| ForeignKeyViolation    (* receipts.sale_id REFERENCES sales(id) *)
| NoRows                 (* [.single()] on an empty result *)
| MultipleRows.          (* [.single()] / [.maybeSingle()] on several rows *)

Inductive Result (A : Type) :=
| Ok (a : A)
| Throw (e : PostgrestError).
Arguments Ok {A} a.
Arguments Throw {A} e.

(** An awaited call of the data layer: it may throw, and it leaves a store
    behind in both cases. *)
Definition Async (A : Type) : Type := Database -> Result A * Database.

Definition ret {A} (a : A) : Async A := fun db => (Ok a, db).

Definition bind {A B} (m : Async A) (k : A -> Async B) : Async B :=
  fun db =>
    match m db with
    | (Ok a, db') => k a db'
    | (Throw e, db') => (Throw e, db')
    end.

(** [try { m } catch (error) { h }], for a handler that does not throw. *)
Definition try_catch {A} (m : Async A) (h : PostgrestError -> A)
  : Database -> A * Database :=
  fun db =>
    match m db with
    | (Ok a, db') => (a, db')
    | (Throw e, db') => (h e, db')
    end.

Notation "'await' x <- m ; k" := (bind m (fun x => k))
  (at level 10, x name, m at level 100, k at level 200,
   format "'[v' 'await'  x  <-  m ; '/' k ']'").

(** Column defaults of the receipts table
    (the migration's [DEFAULT] clauses). *)
Definition DEFAULT_BUSINESS_ADDRESS : string := "56 Iwofe Road, Rumuopirikom, PHC".

Module inventoryDB.

(** [select('*').eq('id', id).maybeSingle()]: the key is unique, the read
    finds one row or none. *)
Definition getById (id : string) : Async (option InventoryItem.t) :=
  fun db => (Ok (inventory db !! id), db).

(** [update({ quantity: q }).eq('id', itemId).select().single()]: the
    statement rewrites the quantity column of the row that is in the table
    when it runs; [.single()] fails when no row matched.  [deductStock]
    calls it with what is left of a stored quantity after a request that
    the quantity covers: for the requests of a cart, which are positive,
    a value between zero and the stored quantity. *)
Definition updateQuantity (itemId : string) (q : Z) : Async InventoryItem.t :=
  fun db =>
    match inventory db !! itemId with
    | None => (Throw NoRows, db)
    | Some row =>
        let row' :=
          InventoryItem.mk (InventoryItem.id row) (InventoryItem.name row)
            (InventoryItem.category row) (InventoryItem.unitPrice row) q
            (InventoryItem.lowStockThreshold row) in
        (Ok row',
         mkDatabase (<[itemId := row']> (inventory db)) (sales db) (receipts db))
    end.

(** [deductStock]: read the item, refuse with [undefined] when it is
    missing or holds less than the requested quantity, else write the
    difference. *)
Definition deductStock (itemId : string) (quantity : Z)
  : Async (option InventoryItem.t) :=
  await item <- getById itemId;
  match item with
  | None => ret None
  | Some item =>
      if InventoryItem.quantity item <? quantity then ret None
      else
        await data <- updateQuantity itemId (InventoryItem.quantity item - quantity);
        ret (Some data)
  end.

(** [insert({ id, name, category, unit_price, quantity,
    low_stock_threshold, ... }).select().single()], [id] being the fresh
    [generateId ()].  The store refuses the row when [quantity] or
    [low_stock_threshold] is outside the INTEGER range, when [unit_price]
    (NUMERIC NOT NULL) arrives as [null], or when the key is taken. *)
Definition add (id : string) (item : NewInventoryItem.t) : Async InventoryItem.t :=
  fun db =>
    if negb (isInteger32 (NewInventoryItem.quantity item) &&
             isInteger32 (NewInventoryItem.lowStockThreshold item))
    then (Throw IntegerOutOfRange, db)
    else
      match Number.toJSON (NewInventoryItem.unitPrice item) with
      | None => (Throw NotNullViolation, db)
      | Some unit_price =>
          match inventory db !! id with
          | Some _ => (Throw UniqueViolation, db)
          | None =>
              let row :=
                InventoryItem.mk id (NewInventoryItem.name item)
                  (NewInventoryItem.category item) unit_price
                  (NewInventoryItem.quantity item)
                  (NewInventoryItem.lowStockThreshold item) in
              (Ok row,
               mkDatabase (<[id := row]> (inventory db)) (sales db) (receipts db))
          end
      end.

(** [updateData] holds no column when every property is [undefined]. *)
Definition noColumn (updates : InventoryUpdates.t) : bool :=
  match InventoryUpdates.name updates, InventoryUpdates.category updates,
        InventoryUpdates.unitPrice updates, InventoryUpdates.quantity updates,
        InventoryUpdates.lowStockThreshold updates with
  | None, None, None, None, None => true
  | _, _, _, _, _ => false
  end.

(** [update(updateData).eq('id', id).select().single()]: the columns that
    [updateData] carries are rewritten on the row with that key; an update
    that carries no column, or whose key matches no row, selects no row,
    and [.single()] fails.  The store refuses a [quantity] or a
    [low_stock_threshold] outside the INTEGER range, and a [unit_price]
    that arrives as [null]. *)
Definition update (id : string) (updates : InventoryUpdates.t)
  : Async (option InventoryItem.t) :=
  fun db =>
    if noColumn updates then (Throw NoRows, db)
    else if negb (from_option isInteger32 true (InventoryUpdates.quantity updates) &&
                  from_option isInteger32 true
                    (InventoryUpdates.lowStockThreshold updates))
    then (Throw IntegerOutOfRange, db)
    else
      match inventory db !! id with
      | None => (Throw NoRows, db)
      | Some row =>
          if negb (from_option Number.isFinite true (InventoryUpdates.unitPrice updates))
          then (Throw NotNullViolation, db)
          else
            let row' :=
              InventoryItem.mk (InventoryItem.id row)
                (default (InventoryItem.name row) (InventoryUpdates.name updates))
                (default (InventoryItem.category row)
                   (InventoryUpdates.category updates))
                (default (InventoryItem.unitPrice row)
                   (Number.stored <$> InventoryUpdates.unitPrice updates))
                (default (InventoryItem.quantity row)
                   (InventoryUpdates.quantity updates))
                (default (InventoryItem.lowStockThreshold row)
                   (InventoryUpdates.lowStockThreshold updates)) in
            (Ok (Some row'),
             mkDatabase (<[id := row']> (inventory db)) (sales db) (receipts db))
      end.

(** [delete().eq('id', id)]: no row matched is no error. *)
Definition delete (id : string) : Async unit :=
  fun db =>
    (Ok tt, mkDatabase (base.delete id (inventory db)) (sales db) (receipts db)).

End inventoryDB.

Module salesDB.

(** [insert({ id, items, total_amount, seller_name, buyer_name })
    .select().single()], [id] being the fresh [generateId ()].  The store
    refuses the row when [total_amount] (NUMERIC NOT NULL) arrives as
    [null], or when the key is taken. *)
Definition add (id : string) (sale : NewSale.t) : Async Sale.t :=
  fun db =>
    match Number.toJSON (NewSale.totalAmount sale) with
    | None => (Throw NotNullViolation, db)
    | Some total_amount =>
        if decide (id ∈ Sale.id <$> sales db) then (Throw UniqueViolation, db)
        else
          let row :=
            Sale.mk id (storedSaleItem <$> NewSale.items sale) total_amount
              (NewSale.sellerName sale) (NewSale.buyerName sale) in
          (Ok row, mkDatabase (inventory db) (sales db ++ [row]) (receipts db))
    end.

Definition getById (id : string) : Async (option Sale.t) :=
  fun db => (Ok (snd <$> list_find (fun s => Sale.id s = id) (sales db)), db).

End salesDB.

Module receiptsDB.

(** [select('*').eq('sale_id', saleId).maybeSingle()]: no row is
    [undefined], one row is the receipt, several rows are an error. *)
Definition getBySaleId (saleId : string) : Async (option Receipt.t) :=
  fun db =>
    match filter (fun r => Receipt.saleId r = saleId) (receipts db) with
    | [] => (Ok None, db)
    | [r] => (Ok (Some r), db)
    | _ => (Throw MultipleRows, db)
    end.

(** [insert({ id, sale_id, business_name, business_address, items,
    total_amount, seller_name, buyer_name }).select().single()].  An
    [undefined] property is left out of the request body, and the column
    takes its default.  The store refuses the row when [total_amount]
    (NUMERIC NOT NULL) arrives as [null], when the key is taken, or when
    [sale_id] references no sale. *)
Definition add (id : string) (receipt : NewReceipt.t) : Async Receipt.t :=
  fun db =>
    match Number.toJSON (NewReceipt.totalAmount receipt) with
    | None => (Throw NotNullViolation, db)
    | Some total_amount =>
        if decide (id ∈ Receipt.id <$> receipts db) then (Throw UniqueViolation, db)
        else if decide (NewReceipt.saleId receipt ∈ Sale.id <$> sales db) then
          let row :=
            Receipt.mk id (NewReceipt.saleId receipt) (NewReceipt.businessName receipt)
              (default DEFAULT_BUSINESS_ADDRESS (NewReceipt.businessAddress receipt))
              (storedSaleItem <$> NewReceipt.items receipt) total_amount
              (NewReceipt.sellerName receipt) (NewReceipt.buyerName receipt) in
          (Ok row, mkDatabase (inventory db) (sales db) (receipts db ++ [row]))
        else (Throw ForeignKeyViolation, db)
    end.

(** [select('*').eq('id', id).maybeSingle()] *)
Definition getById (id : string) : Async (option Receipt.t) :=
  fun db => (Ok (snd <$> list_find (fun r => Receipt.id r = id) (receipts db)), db).

End receiptsDB.

(** The settings table, read and written through its one row, 'main'. *)
Definition DEFAULT_BUSINESS_NAME : string := "Nigro Automobiles".
Definition DEFAULT_PIN : string := "159874".

Module settingsDB.

Section Hash.

(** [hashPin]: the hexadecimal SHA-256 digest of the PIN followed by a
    fixed salt; the digest function is a parameter. *)
Variable hashPin : string -> string.

(** [select('*').eq('id', 'main').maybeSingle()] *)
Definition get (table : option AppSettings.t) : option AppSettings.t := table.

(** [upsert({ id: 'main', pin_hash, business_name, business_address })
    .select().single()], the PIN being the default one; the two names
    default to the constants when they are not given. *)
Definition initialize (businessName businessAddress : option string)
    (table : option AppSettings.t) : AppSettings.t * option AppSettings.t :=
  let row :=
    AppSettings.mk "main" (Some (hashPin DEFAULT_PIN))
      (default DEFAULT_BUSINESS_NAME businessName)
      (default DEFAULT_BUSINESS_ADDRESS businessAddress) in
  (row, Some row).

(** [update({ pin_hash }).eq('id', 'main')] *)
Definition setPin (pin : string) (table : option AppSettings.t)
  : option AppSettings.t :=
  (fun row =>
     AppSettings.mk (AppSettings.id row) (Some (hashPin pin))
       (AppSettings.businessName row) (AppSettings.businessAddress row))
  <$> table.

(** [verifyPin]; [!settings?.pinHash] holds for a missing row, a null hash
    and an empty one. *)
Definition verifyPin (pin : string) (table : option AppSettings.t) : bool :=
  match get table with
  | None => false
  | Some settings =>
      match AppSettings.pinHash settings with
      | None => false
      | Some pinHash =>
          if decide (pinHash = EmptyString) then false
          else bool_decide (hashPin pin = pinHash)
      end
  end.

End Hash.

(** [update({ business_name }).eq('id', 'main')] *)
Definition updateBusinessName (name : string) (table : option AppSettings.t)
  : option AppSettings.t :=
  (fun row =>
     AppSettings.mk (AppSettings.id row) (AppSettings.pinHash row) name
       (AppSettings.businessAddress row))
  <$> table.

(** [update({ business_address }).eq('id', 'main')] *)
Definition updateBusinessAddress (address : string) (table : option AppSettings.t)
  : option AppSettings.t :=
  (fun row =>
     AppSettings.mk (AppSettings.id row) (AppSettings.pinHash row)
       (AppSettings.businessName row) address)
  <$> table.

(** [update({ business_name, business_address }).eq('id', 'main')] *)
Definition updateBusinessInfo (name address : string) (table : option AppSettings.t)
  : option AppSettings.t :=
  (fun row =>
     AppSettings.mk (AppSettings.id row) (AppSettings.pinHash row) name address)
  <$> table.

End settingsDB.

(** ** Strings *)

(** ECMAScript's WhiteSpace and LineTerminator code points below 256:
    TAB, LF, VT, FF, CR, SPACE and NBSP. *)
Definition isWhiteSpace (c : Ascii.ascii) : bool :=
  match Ascii.N_of_ascii c with
  | (9 | 10 | 11 | 12 | 13 | 32 | 160)%N => true
  | _ => false
  end.

Fixpoint trimStart (s : string) : string :=
  match s with
  | EmptyString => EmptyString
  | String c s' => if isWhiteSpace c then trimStart s' else s
  end.

Fixpoint trimEnd (s : string) : string :=
  match s with
  | EmptyString => EmptyString
  | String c s' =>
      match trimEnd s' with
      | EmptyString => if isWhiteSpace c then EmptyString else String c EmptyString
      | t => String c t
      end
  end.

(** [String.prototype.trim] *)
Definition trim (s : string) : string := trimEnd (trimStart s).

Definition firstChar (s : string) : option Ascii.ascii :=
  match s with
  | EmptyString => None
  | String c _ => Some c
  end.

Fixpoint lastChar (s : string) : option Ascii.ascii :=
  match s with
  | EmptyString => None
  | String c EmptyString => Some c
  | String _ s' => lastChar s'
  end.

(** [a || b] on strings: the empty string, [undefined] and [null] are
    falsy. *)
Definition or_else (a : option string) (b : string) : string :=
  match a with
  | Some s => if decide (s = EmptyString) then b else s
  | None => b
  end.

(** ** Cart builder (the sell page's cart state) *)

Inductive CartToast :=
| NoToast
| InsufficientStock (available : Z) (itemName : string)
| AddedToCart (quantity : Z) (itemName : string).

(** [cart.reduce((sum, item) => sum + item.total, 0)] *)
Definition totalAmount (cart : list CartItem.t) : number :=
  foldl (fun sum item => Number.add sum (CartItem.total item)) Number.zero cart.

(** [addToCart], for the page state [items] (the inventory as last
    loaded), [selectedItemId] and [quantity]. *)
Definition addToCart (items : list InventoryItem.t) (selectedItemId : string)
    (quantity : Z) (cart : list CartItem.t) : list CartItem.t * CartToast :=
  match list_find (fun i => InventoryItem.id i = selectedItemId) items with
  | None => (cart, NoToast)
  | Some (_, selectedItem) =>
      if quantity <=? 0 then (cart, NoToast)
      else
        match list_find
                (fun c => CartItem.itemId c = InventoryItem.id selectedItem) cart with
        | Some (existingIndex, existing) =>
            let newQty := CartItem.quantity existing + quantity in
            if CartItem.availableQty existing <? newQty then
              (cart, InsufficientStock (CartItem.availableQty existing)
                       (InventoryItem.name selectedItem))
            else
              (<[existingIndex :=
                   CartItem.mk (CartItem.itemId existing) (CartItem.itemName existing)
                     newQty (CartItem.unitPrice existing)
                     (Number.mul (Number.ofZ newQty) (CartItem.unitPrice existing))
                     (CartItem.availableQty existing)]> cart,
               AddedToCart quantity (InventoryItem.name selectedItem))
        | None =>
            if InventoryItem.quantity selectedItem <? quantity then
              (cart, InsufficientStock (InventoryItem.quantity selectedItem)
                       (InventoryItem.name selectedItem))
            else
              (cart ++
                 [CartItem.mk (InventoryItem.id selectedItem)
                    (InventoryItem.name selectedItem) quantity
                    (InventoryItem.unitPrice selectedItem)
                    (Number.mul (Number.ofZ quantity)
                       (InventoryItem.unitPrice selectedItem))
                    (InventoryItem.quantity selectedItem)],
               AddedToCart quantity (InventoryItem.name selectedItem))
        end
  end.

(** [cart.filter((_, i) => i !== index)] *)
Definition removeFromCart (index : nat) (cart : list CartItem.t) : list CartItem.t :=
  delete index cart.

(** [updateCartQuantity]; reading [cart[index]] out of range raises a
    TypeError before any state is set. *)
Definition updateCartQuantity (index : nat) (delta : Z) (cart : list CartItem.t)
  : list CartItem.t :=
  match cart !! index with
  | None => cart
  | Some item =>
      let newQty := CartItem.quantity item + delta in
      if newQty <=? 0 then removeFromCart index cart
      else if CartItem.availableQty item <? newQty then cart
      else
        <[index :=
            CartItem.mk (CartItem.itemId item) (CartItem.itemName item) newQty
              (CartItem.unitPrice item)
              (Number.mul (Number.ofZ newQty) (CartItem.unitPrice item))
              (CartItem.availableQty item)]> cart
  end.

(** The carts a checkout session can hold: the empty cart, changed by the
    three cart operations, whatever the page state at each call. *)
Inductive CartReachable : list CartItem.t -> Prop :=
| reach_empty : CartReachable []
| reach_add items selectedItemId quantity cart :
    CartReachable cart ->
    CartReachable (fst (addToCart items selectedItemId quantity cart))
| reach_update index delta cart :
    CartReachable cart -> CartReachable (updateCartQuantity index delta cart)
| reach_remove index cart :
    CartReachable cart -> CartReachable (removeFromCart index cart).

(** ** Checkout (the sell page's [handleSubmit]) *)

Inductive Toast :=
| EmptyCart                               (* 'Empty Cart' *)
| SellerNameRequired                      (* 'Seller name is required' *)
| BuyerNameRequired                       (* 'Buyer name is required' *)
| FailedToDeductStock (itemName : string) (* 'Failed to deduct stock for ...' *)
| SaleComplete (receipt : Receipt.t)      (* 'Sale Complete!', then the receipt page *)
| FailedToCompleteSale.                   (* the [catch] branch *)

(** The inventory context's [deductStock]: the data layer's call, then
    [refresh ()], which reloads the page's [items] state, catches its own
    errors and writes nothing to the store. *)
Definition deductStock (itemId : string) (quantity : Z)
  : Async (option InventoryItem.t) :=
  inventoryDB.deductStock itemId quantity.

(** [for (const cartItem of cart)]: the line whose deduction was refused,
    if any. *)
Fixpoint deductLoop (cart : list CartItem.t) : Async (option CartItem.t) :=
  match cart with
  | [] => ret None
  | cartItem :: rest =>
      await result <- deductStock (CartItem.itemId cartItem) (CartItem.quantity cartItem);
      match result with
      | None => ret (Some cartItem)
      | Some _ => deductLoop rest
      end
  end.

Definition saleItems (cart : list CartItem.t) : list SaleItem.t :=
  map (fun c =>
         SaleItem.mk (CartItem.itemId c) (CartItem.itemName c) (CartItem.quantity c)
           (CartItem.unitPrice c) (CartItem.total c))
      cart.

(** The second half of [handleSubmit]'s [try] block: the sale record, then
    the receipt; [saleId] and [receiptId] are the identifiers
    [generateId ()] hands to the two inserts. *)
Definition recordSale (saleId receiptId : string) (settings : option AppSettings.t)
    (cart : list CartItem.t) (sellerName buyerName : string) : Async Toast :=
  await sale <-
    salesDB.add saleId
      (NewSale.mk (saleItems cart) (totalAmount cart)
         (trim sellerName) (trim buyerName));
  await receipt <-
    receiptsDB.add receiptId
      (NewReceipt.mk (Sale.id sale)
         (or_else (AppSettings.businessName <$> settings) "Keke Spare Parts")
         None
         (saleItems cart) (totalAmount cart)
         (trim sellerName) (trim buyerName));
  ret (SaleComplete receipt).

(** The body of [handleSubmit]'s [try] block. *)
Definition checkout (saleId receiptId : string) (settings : option AppSettings.t)
    (cart : list CartItem.t) (sellerName buyerName : string) : Async Toast :=
  await refused <- deductLoop cart;
  match refused with
  | Some cartItem => ret (FailedToDeductStock (CartItem.itemName cartItem))
  | None => recordSale saleId receiptId settings cart sellerName buyerName
  end.

Definition handleSubmit (saleId receiptId : string) (settings : option AppSettings.t)
    (cart : list CartItem.t) (sellerName buyerName : string)
  : Database -> Toast * Database :=
  fun db =>
    if decide (length cart = 0%nat) then (EmptyCart, db)
    else if decide (trim sellerName = EmptyString) then (SellerNameRequired, db)
    else if decide (trim buyerName = EmptyString) then (BuyerNameRequired, db)
    else
      try_catch (checkout saleId receiptId settings cart sellerName buyerName)
        (fun _ => FailedToCompleteSale) db.

(** ** The sell page's item picker *)







(** ** Settings: the auth context and the settings page *)

(** [!!currentSettings.pinHash] *)
Definition hasPin (currentSettings : AppSettings.t) : bool :=
  match AppSettings.pinHash currentSettings with
  | Some h => negb (bool_decide (h = EmptyString))
  | None => false
  end.

(** [refreshSettings] of the auth context: read the settings, initialize
    them when there are none, and publish them with [isPinSetup].
    [answered] tells whether the store answers the calls of this refresh:
    a call it does not answer comes back with an [error], which the data
    layer throws, and the [catch] branch logs it and publishes nothing.
    The result is what is published, if anything, and the table. *)
Definition refreshSettings (hashPin : string -> string) (answered : bool)
    (table : option AppSettings.t)
  : option (AppSettings.t * bool) * option AppSettings.t :=
  if answered then
    match settingsDB.get table with
    | Some currentSettings =>
        (Some (currentSettings, hasPin currentSettings), table)
    | None =>
        let '(currentSettings, table') :=
          settingsDB.initialize hashPin None None table in
        (Some (currentSettings, hasPin currentSettings), table')
    end
  else (None, table).

Inductive SettingsToast :=
| BusinessNameEmpty      (* 'Business name cannot be empty' *)
| BusinessNameSaved.     (* 'Business name updated successfully' *)

(** [handleSaveBusinessName] of the settings page, for an update that the
    store answers; [settings] is the auth context's state, which
    [refreshSettings] replaces when it publishes. *)
Definition handleSaveBusinessName (hashPin : string -> string) (answered : bool)
    (businessName : string)
    (settings : option AppSettings.t) (table : option AppSettings.t)
  : SettingsToast * option AppSettings.t * option AppSettings.t :=
  if decide (trim businessName = EmptyString) then (BusinessNameEmpty, settings, table)
  else
    let table1 := settingsDB.updateBusinessName (trim businessName) table in
    match refreshSettings hashPin answered table1 with
    | (Some (currentSettings, _), table2) =>
        (BusinessNameSaved, Some currentSettings, table2)
    | (None, table2) => (BusinessNameSaved, settings, table2)
    end.

(** [changePin] of the auth context, for a check and an update that the
    store answers: the old PIN is verified, the new one set, the settings
    republished. *)
Definition changePin (hashPin : string -> string) (answered : bool)
    (oldPin newPin : string)
    (table : option AppSettings.t) : bool * option AppSettings.t :=
  if settingsDB.verifyPin hashPin oldPin table then
    let table1 := settingsDB.setPin hashPin newPin table in
    (true, snd (refreshSettings hashPin answered table1))
  else (false, table).

Inductive PinToast :=
| PinLengthError         (* 'PIN must be 4-6 digits' *)
| PinMismatch            (* 'New PINs do not match' *)
| PinChanged             (* 'PIN changed successfully' *)
| CurrentPinIncorrect.   (* 'Current PIN is incorrect' *)

(** [handleChangePin] of the settings page. *)
Definition handleChangePin (hashPin : string -> string) (answered : bool)
    (oldPin newPin confirmPin : string) (table : option AppSettings.t)
  : PinToast * option AppSettings.t :=
  if ((String.length newPin <? 4) || (6 <? String.length newPin))%nat then
    (PinLengthError, table)
  else if decide (newPin = confirmPin) then
    let '(success, table') := changePin hashPin answered oldPin newPin table in
    if success then (PinChanged, table') else (CurrentPinIncorrect, table')
  else (PinMismatch, table).

(** ** Notions used in the statements *)

(** The inventory after the deductions of [lines], taken one after the
    other. *)
Definition deducted (lines : list CartItem.t) (inv : gmap string InventoryItem.t)
  : gmap string InventoryItem.t :=
  foldl
    (fun inv c =>
       alter
         (fun item =>
            InventoryItem.mk (InventoryItem.id item) (InventoryItem.name item)
              (InventoryItem.category item) (InventoryItem.unitPrice item)
              (InventoryItem.quantity item - CartItem.quantity c)
              (InventoryItem.lowStockThreshold item))
         (CartItem.itemId c) inv)
    inv lines.

(** The rows a checkout that goes through writes. *)
Definition saleRow (saleId : string) (cart : list CartItem.t)
    (sellerName buyerName : string) : Sale.t :=
  Sale.mk saleId (storedSaleItem <$> saleItems cart) (Number.stored (totalAmount cart))
    (trim sellerName) (trim buyerName).

Definition receiptRow (saleId receiptId : string) (settings : option AppSettings.t)
    (cart : list CartItem.t) (sellerName buyerName : string) : Receipt.t :=
  Receipt.mk receiptId saleId
    (or_else (AppSettings.businessName <$> settings) "Keke Spare Parts")
    DEFAULT_BUSINESS_ADDRESS
    (storedSaleItem <$> saleItems cart) (Number.stored (totalAmount cart))
    (trim sellerName) (trim buyerName).

(** Every line asks for at least one unit, as the cart builder leaves
    them. *)
Definition positiveLines (cart : list CartItem.t) : Prop :=
  Forall (fun l => 0 < CartItem.quantity l) cart.

(** The receipts that reference a sale. *)
Definition receiptsOf (saleId : string) (db : Database) : list Receipt.t :=
  filter (fun r => Receipt.saleId r = saleId) (receipts db).

(** A line total that is the product, as the page computes it, of the
    line's quantity and unit price; the sum of the line totals of a sale,
    added from left to right. *)
Definition lineRounded (l : SaleItem.t) : Prop :=
  SaleItem.total l = Number.mul (Number.ofZ (SaleItem.quantity l)) (SaleItem.unitPrice l).

Definition lineTotalsSum (items : list SaleItem.t) : number :=
  foldl (fun sum l => Number.add sum (SaleItem.total l)) Number.zero items.

Definition cartLineRounded (c : CartItem.t) : Prop :=
  CartItem.total c = Number.mul (Number.ofZ (CartItem.quantity c)) (CartItem.unitPrice c).

(** The value of a finite number, counted in units of 2^-1074, the
    smallest positive binary64 number: every finite binary64 number is a
    whole number of them. *)
Definition units (x : number) : Z :=
  match x with
  | S754_finite s m e => (if s then -1 else 1) * Z.pos m * 2 ^ (e + 1074)
  | _ => 0
  end.

(** The line of the cart that [findIndex] returns for an item: the first
    one that carries its identifier. *)
Definition firstLineOf (itemId : string) (cart : list CartItem.t)
    (k : nat) (existing : CartItem.t) : Prop :=
  cart !! k = Some existing /\
  CartItem.itemId existing = itemId /\
  forall j y, cart !! j = Some y -> (j < k)%nat -> CartItem.itemId y <> itemId.

Definition notInCart (itemId : string) (cart : list CartItem.t) : Prop :=
  Forall (fun c => CartItem.itemId c <> itemId) cart.

(** What the store's constraints keep: sale and receipt identifiers are
    keys, every receipt references a sale that exists, and an inventory
    row sits under its own identifier. *)
Definition wellFormed (db : Database) : Prop :=
  NoDup (Sale.id <$> sales db) /\
  NoDup (Receipt.id <$> receipts db) /\
  (forall r, r ∈ receipts db -> Receipt.saleId r ∈ Sale.id <$> sales db) /\
  (forall k item, inventory db !! k = Some item -> InventoryItem.id item = k).

(** No item is below zero. *)
Definition stockNotBelowZero (db : Database) : Prop :=
  forall k item, inventory db !! k = Some item -> 0 <= InventoryItem.quantity item.

(** No sale has two receipts. *)
Definition oneReceiptPerSale (db : Database) : Prop :=
  forall saleId, (length (receiptsOf saleId db) <= 1)%nat.

(** What the inventory table can hold: a quantity and a threshold within
    the INTEGER range, a price that is a finite number. *)
Definition storable (item : NewInventoryItem.t) : Prop :=
  isInteger32 (NewInventoryItem.quantity item) = true /\
  isInteger32 (NewInventoryItem.lowStockThreshold item) = true /\
  Number.isFinite (NewInventoryItem.unitPrice item) = true.

Definition storableUpdates (updates : InventoryUpdates.t) : Prop :=
  (forall q, InventoryUpdates.quantity updates = Some q -> isInteger32 q = true) /\
  (forall t, InventoryUpdates.lowStockThreshold updates = Some t ->
             isInteger32 t = true) /\
  (forall p, InventoryUpdates.unitPrice updates = Some p -> Number.isFinite p = true).

(** A cart line asks for at least one unit and for no more than the
    availability recorded on it. *)
Definition cartLineBounded (c : CartItem.t) : Prop :=
  0 < CartItem.quantity c <= CartItem.availableQty c.

(** Between two stores no item appeared or went away and no item changed
    in anything but its quantity. *)
Definition onlyQuantitiesChanged (db db' : Database) : Prop :=
  forall k,
    match inventory db !! k, inventory db' !! k with
    | None, None => True
    | Some item, Some item' =>
        InventoryItem.id item' = InventoryItem.id item /\
        InventoryItem.name item' = InventoryItem.name item /\
        InventoryItem.category item' = InventoryItem.category item /\
        InventoryItem.unitPrice item' = InventoryItem.unitPrice item /\
        InventoryItem.lowStockThreshold item' = InventoryItem.lowStockThreshold item
    | _, _ => False
    end.


(** The products of quantity and unit price over the lines of a cart,
    added from left to right. *)
Definition cartValue (cart : list CartItem.t) : number :=
  foldl
    (fun sum c =>
       Number.add sum
         (Number.mul (Number.ofZ (CartItem.quantity c)) (CartItem.unitPrice c)))
    Number.zero cart.

(** ** Sample data *)

Module Sample.

(** The plug, at 100 the piece, with [n] units in stock. *)
Definition plugsLeft (n : Z) : InventoryItem.t :=
  InventoryItem.mk "plug" "Spark plug" "Engine" (Number.ofZ 100) n 5.

Definition plug : InventoryItem.t := plugsLeft 5.
Definition tyre : InventoryItem.t :=
  InventoryItem.mk "tyre" "Tyre" "Wheels" (Number.ofZ 900) 1 5.
Definition chain : InventoryItem.t :=
  InventoryItem.mk "chain" "Chain" "Drive" (Number.ofZ 250) 2 5.

Definition stock : gmap string InventoryItem.t :=
  {[ "plug" := plug; "tyre" := tyre; "chain" := chain ]}.

Definition shop : Database := mkDatabase stock [] [].

Definition settings : AppSettings.t :=
  AppSettings.mk "main" None "Nigro Automobiles" "12 Market Road, Aba".

(** Two plugs, then three tyres: the second line asks for more than the
    store holds. *)
Definition twoPlugs : CartItem.t :=
  CartItem.mk "plug" "Spark plug" 2 (Number.ofZ 100) (Number.ofZ 200) 5.
Definition threeTyres : CartItem.t :=
  CartItem.mk "tyre" "Tyre" 3 (Number.ofZ 900) (Number.ofZ 2700) 3.
Definition fiveChains : CartItem.t :=
  CartItem.mk "chain" "Chain" 5 (Number.ofZ 250) (Number.ofZ 1250) 5.

(** A sale of two plugs that goes through, the names typed with blanks
    around them. *)
Definition completeRun : Toast * Database :=
  handleSubmit "s1" "r1" (Some settings) [twoPlugs] "  Ada " " Bola" shop.

(** The line, the sale and the receipt it leaves in the store. *)
Definition soldPlugs : StoredSaleItem.t :=
  StoredSaleItem.mk "plug" "Spark plug" 2
    (Some (Number.ofZ 100)) (Some (Number.ofZ 200)).

Definition completeSale : Sale.t :=
  Sale.mk "s1" [soldPlugs] (Number.ofZ 200) "Ada" "Bola".

Definition completeReceipt : Receipt.t :=
  Receipt.mk "r1" "s1" "Nigro Automobiles" "56 Iwofe Road, Rumuopirikom, PHC"
    [soldPlugs] (Number.ofZ 200) "Ada" "Bola".

(** Three plugs, the cart of each of two devices; the store once both
    devices have been granted their plugs out of the five and the first has
    recorded its sale. *)
Definition threePlugs : CartItem.t :=
  CartItem.mk "plug" "Spark plug" 3 (Number.ofZ 100) (Number.ofZ 300) 5.
Definition fivePlugs : CartItem.t :=
  CartItem.mk "plug" "Spark plug" 5 (Number.ofZ 100) (Number.ofZ 500) 5.

Definition afterFirstSale : Database :=
  mkDatabase (<["plug" := plugsLeft 2]> stock)
    [saleRow "s1" [threePlugs] "Ada" "Bola"]
    [receiptRow "s1" "r1" None [threePlugs] "Ada" "Bola"].

(** The attempt of scenario C. *)
Definition refusedRun : Toast * Database :=
  handleSubmit "s1" "r1" (Some settings) [twoPlugs; threeTyres] "Ada" "Bola" shop.

End Sample.

(** A sale whose receipt is asked for twice. *)
Module SampleReceipts.

Definition sale : Sale.t := Sample.completeSale.

Definition sold : Database := mkDatabase Sample.stock [sale] [].

Definition request : NewReceipt.t :=
  NewReceipt.mk "s1" "Nigro Automobiles" None
    [SaleItem.mk "plug" "Spark plug" 2 (Number.ofZ 100) (Number.ofZ 200)]
    (Number.ofZ 200) "Ada" "Bola".

Definition first : Receipt.t :=
  Receipt.mk "r1" "s1" "Nigro Automobiles" DEFAULT_BUSINESS_ADDRESS
    [Sample.soldPlugs] (Number.ofZ 200) "Ada" "Bola".

Definition second : Receipt.t :=
  Receipt.mk "r2" "s1" "Nigro Automobiles" DEFAULT_BUSINESS_ADDRESS
    [Sample.soldPlugs] (Number.ofZ 200) "Ada" "Bola".

(** The store once the sale has its receipt; a receipt asked for a
    second sale, "s2". *)
Definition settled : Database := mkDatabase Sample.stock [sale] [first].

Definition requestForSecond : NewReceipt.t :=
  NewReceipt.mk "s2" "Nigro Automobiles" None
    [SaleItem.mk "plug" "Spark plug" 2 (Number.ofZ 100) (Number.ofZ 200)]
    (Number.ofZ 200) "Chi" "Dayo".

End SampleReceipts.

(** Settings: a stand-in for the digest (the PIN followed by the salt), and
    the row the migration inserts, with no PIN yet. *)
Module SampleSettings.

Definition digest (pin : string) : string := pin +:+ "keke-salt-2024".

Definition migrated : AppSettings.t :=
  AppSettings.mk "main" None "Nigro Automobiles" "56 Iwofe Road, Rumuopirikom, PHC".

End SampleSettings.

(** Prices with a fractional part: oil at 0.1 and grease at 0.2, the
    binary64 numbers nearest to one tenth and to two tenths; three units of
    oil and one of grease, sold. *)
Module SampleFractions.

Definition tenth : number := S754_finite false 7205759403792794 (-56).
Definition fifth : number := S754_finite false 7205759403792794 (-55).

(** 0.30000000000000004 and 0.5 *)
Definition threeTenths : number := S754_finite false 5404319552844596 (-54).
Definition half : number := S754_finite false 4503599627370496 (-53).

Definition oil : InventoryItem.t := InventoryItem.mk "oil" "Oil" "Fluids" tenth 5 5.
Definition grease : InventoryItem.t :=
  InventoryItem.mk "grease" "Grease" "Fluids" fifth 5 5.

Definition items : list InventoryItem.t := [oil; grease].

Definition shop : Database :=
  mkDatabase {[ "oil" := oil; "grease" := grease ]} [] [].

Definition cart : list CartItem.t :=
  [CartItem.mk "oil" "Oil" 3 tenth threeTenths 5;
   CartItem.mk "grease" "Grease" 1 fifth fifth 5].

Definition run : Toast * Database :=
  handleSubmit "s1" "r1" None cart "Ada" "Bola" shop.

Definition sale : Sale.t :=
  Sale.mk "s1"
    [StoredSaleItem.mk "oil" "Oil" 3 (Some tenth) (Some threeTenths);
     StoredSaleItem.mk "grease" "Grease" 1 (Some fifth) (Some fifth)]
    half "Ada" "Bola".

Definition receipt : Receipt.t :=
  Receipt.mk "r1" "s1" "Keke Spare Parts" DEFAULT_BUSINESS_ADDRESS
    (Sale.items sale) half "Ada" "Bola".

End SampleFractions.

(** A price near the largest binary64 number, 1.7976931348623157e308: two
    units of it are more than a number can hold. *)
Module SampleOverflow.

Definition largest : number := S754_finite false 9007199254740991 971.

Definition ingot : InventoryItem.t :=
  InventoryItem.mk "ingot" "Ingot" "Metals" largest 5 5.

Definition shop : Database := mkDatabase {[ "ingot" := ingot ]} [] [].

Definition cart : list CartItem.t :=
  [CartItem.mk "ingot" "Ingot" 2 largest (S754_infinity false) 5].

End SampleOverflow.

(** Inventory management: a bulb to add, a price change. *)
Module SampleStock.

Definition bulb : NewInventoryItem.t :=
  NewInventoryItem.mk "Bulb" "Lights" (Number.ofZ 50) 4 5.

Definition bulbRow : InventoryItem.t :=
  InventoryItem.mk "bulb" "Bulb" "Lights" (Number.ofZ 50) 4 5.

Definition reprice : InventoryUpdates.t :=
  InventoryUpdates.mk None None (Some (Number.ofZ 120)) None None.

End SampleStock.

(** ** Two devices deducting from one item *)

(** The store is shared by several devices, and [deductStock] awaits it
    twice: once to read the item, once to write the new quantity.  Between
    the two, calls of other devices may run.  A call in flight is at one of
    its two awaits or has returned. *)
Module Interleaving.

Inductive Call :=
| Reading (itemId : string) (quantity : Z)
| Writing (itemId : string) (quantity : Z) (item : InventoryItem.t)
| Returned (result : Result (option InventoryItem.t)).

(** One await of [inventoryDB.deductStock], with the code that follows it
    up to the next await. *)
Definition step (call : Call) (db : Database) : Call * Database :=
  match call with
  | Reading itemId quantity =>
      match inventoryDB.getById itemId db with
      | (Ok None, db') => (Returned (Ok None), db')
      | (Ok (Some item), db') =>
          if InventoryItem.quantity item <? quantity then (Returned (Ok None), db')
          else (Writing itemId quantity item, db')
      | (Throw e, db') => (Returned (Throw e), db')
      end
  | Writing itemId quantity item =>
      match inventoryDB.updateQuantity itemId
              (InventoryItem.quantity item - quantity) db with
      | (Ok data, db') => (Returned (Ok (Some data)), db')
      | (Throw e, db') => (Returned (Throw e), db')
      end
  | Returned result => (Returned result, db)
  end.

(** Two calls and the store they share; a schedule says which call takes
    the next step ([true]: the first). *)
Definition State : Type := Call * Call * Database.

Definition next (first : bool) (st : State) : State :=
  let '(c1, c2, db) := st in
  if first then let (c1', db') := step c1 db in (c1', c2, db')
  else let (c2', db') := step c2 db in (c1, c2', db').

Definition run (schedule : list bool) (st : State) : State :=
  foldl (fun st first => next first st) st schedule.

Definition returned (call : Call) : bool :=
  match call with Returned _ => true | _ => false end.

Definition granted (call : Call) : bool :=
  match call with Returned (Ok (Some _)) => true | _ => false end.

Definition refused (call : Call) : bool :=
  match call with Returned (Ok None) => true | _ => false end.

Definition stockOf (itemId : string) (db : Database) : option Z :=
  InventoryItem.quantity <$> inventory db !! itemId.

#[global] Instance number_eq_dec : EqDecision number.
Proof. unfold number. solve_decision. Defined.
#[global] Instance InventoryItem_eq_dec : EqDecision InventoryItem.t.
Proof. solve_decision. Defined.
#[global] Instance StoredSaleItem_eq_dec : EqDecision StoredSaleItem.t.
Proof. solve_decision. Defined.
#[global] Instance Sale_eq_dec : EqDecision Sale.t.
Proof. solve_decision. Defined.
#[global] Instance Receipt_eq_dec : EqDecision Receipt.t.
Proof. solve_decision. Defined.
#[global] Instance Database_eq_dec : EqDecision Database.
Proof. solve_decision. Defined.
#[global] Instance PostgrestError_eq_dec : EqDecision PostgrestError.
Proof. solve_decision. Defined.
#[global] Instance Result_eq_dec `{EqDecision A} : EqDecision (Result A).
Proof. solve_decision. Defined.
#[global] Instance Call_eq_dec : EqDecision Call.
Proof. solve_decision. Defined.

(** The states within [n] steps of [sts]. *)
Fixpoint explore (n : nat) (sts : list State) : list State :=
  match n with
  | O => sts
  | S n =>
      explore n (remove_dups (sts ++ (sts ≫= fun st => [next true st; next false st])))
  end.

Definition closed (sts : list State) : Prop :=
  Forall (fun st => next true st ∈ sts /\ next false st ∈ sts) sts.

(** Five plugs in stock, two calls for three plugs each. *)
Definition start : State := (Reading "plug" 3, Reading "plug" 3, Sample.shop).

(** What the schedule's first two steps decide: when they are steps of
    the same call, that call ran as a whole before the other read, it is
    granted and the other refused; when they are not, both calls read
    before either wrote, and both are granted. *)
Definition outcome (schedule : list bool) (c1 c2 : Call) : Prop :=
  match schedule with
  | b1 :: b2 :: _ =>
      if decide (b1 = b2) then
        granted c1 = b1 /\ refused c2 = b1 /\ granted c2 = negb b1 /\ refused c1 = negb b1
      else granted c1 = true /\ granted c2 = true
  | _ => False
  end.

(** The properties checked on every state the schedules reach. *)
Definition stockNotNegative (st : State) : bool :=
  match stockOf "plug" (snd st) with
  | Some q => 0 <=? q
  | None => false
  end.

Definition bothReturned (st : State) : bool :=
  returned (fst (fst st)) && returned (snd (fst st)).

Definition stockIsTwo (st : State) : bool :=
  bool_decide (stockOf "plug" (snd st) = Some 2).

(** The states the two calls are in after the two first steps. *)
Definition firstThenSecond : State := run [true; true] start.
Definition secondThenFirst : State := run [false; false] start.
Definition bothRead : State := run [true; false] start.

(** A call that is about to write read an item that held at least what it
    asks for. *)
Definition writeWithinRead (call : Call) : Prop :=
  match call with
  | Writing _ quantity item => quantity <= InventoryItem.quantity item
  | _ => True
  end.

End Interleaving.

(** * Properties *)

(** ** The store operations, step by step *)

Section DeductStock.

Variables (itemId : string) (quantity : Z) (db : Database).

Lemma deductStock_missing :
  inventory db !! itemId = None ->
  deductStock itemId quantity db = (Ok None, db).
Proof.
  intros Hnone. unfold deductStock, inventoryDB.deductStock, bind, inventoryDB.getById.
  by rewrite Hnone.
Qed.

Lemma deductStock_refused item :
  inventory db !! itemId = Some item ->
  InventoryItem.quantity item < quantity ->
  deductStock itemId quantity db = (Ok None, db).
Proof.
  intros Hitem Hlt. unfold deductStock, inventoryDB.deductStock, bind, inventoryDB.getById.
  rewrite Hitem. destruct (Z.ltb_spec (InventoryItem.quantity item) quantity); [done | lia].
Qed.

Lemma deductStock_granted item :
  inventory db !! itemId = Some item ->
  quantity <= InventoryItem.quantity item ->
  let row :=
    InventoryItem.mk (InventoryItem.id item) (InventoryItem.name item)
      (InventoryItem.category item) (InventoryItem.unitPrice item)
      (InventoryItem.quantity item - quantity)
      (InventoryItem.lowStockThreshold item) in
  deductStock itemId quantity db =
    (Ok (Some row),
     mkDatabase (<[itemId := row]> (inventory db)) (sales db) (receipts db)).
Proof.
  intros Hitem Hle. unfold deductStock, inventoryDB.deductStock, bind, inventoryDB.getById.
  rewrite Hitem. destruct (Z.ltb_spec (InventoryItem.quantity item) quantity); [lia |].
  unfold inventoryDB.updateQuantity. by rewrite Hitem.
Qed.

(** The three cases are all there is: run on its own, [deductStock] does
    not throw. *)
Lemma deductStock_cases :
  (deductStock itemId quantity db = (Ok None, db) /\
   (inventory db !! itemId = None \/
    exists item, inventory db !! itemId = Some item /\
                 InventoryItem.quantity item < quantity)) \/
  (exists item,
     inventory db !! itemId = Some item /\
     quantity <= InventoryItem.quantity item /\
     let row :=
       InventoryItem.mk (InventoryItem.id item) (InventoryItem.name item)
         (InventoryItem.category item) (InventoryItem.unitPrice item)
         (InventoryItem.quantity item - quantity)
         (InventoryItem.lowStockThreshold item) in
     deductStock itemId quantity db =
       (Ok (Some row),
        mkDatabase (<[itemId := row]> (inventory db)) (sales db) (receipts db))).
Proof.
  destruct (inventory db !! itemId) as [item|] eqn:Hitem.
  - destruct (Z.lt_ge_cases (InventoryItem.quantity item) quantity) as [Hlt|Hge].
    + left. split; [by eapply deductStock_refused | right; eauto].
    + right. exists item. split_and!; [done | done |].
      by apply deductStock_granted.
  - left. split; [by apply deductStock_missing | by left].
Qed.

End DeductStock.

Lemma deductLoop_cons c rest db :
  deductLoop (c :: rest) db =
    match deductStock (CartItem.itemId c) (CartItem.quantity c) db with
    | (Ok None, db') => (Ok (Some c), db')
    | (Ok (Some _), db') => deductLoop rest db'
    | (Throw e, db') => (Throw e, db')
    end.
Proof.
  simpl. unfold bind.
  destruct (deductStock _ _ db) as [[[?|]|] ?]; reflexivity.
Qed.

(** The loop does not throw and writes to the inventory only. *)
Lemma deductLoop_total cart db :
  exists refused db1,
    deductLoop cart db = (Ok refused, db1) /\
    sales db1 = sales db /\ receipts db1 = receipts db.
Proof.
  revert db. induction cart as [|c rest IH]; intros db.
  - by exists None, db.
  - rewrite deductLoop_cons.
    destruct (deductStock_cases (CartItem.itemId c) (CartItem.quantity c) db)
      as [[-> _] | (item & _ & _ & ->)].
    + by exists (Some c), db.
    + cbv zeta. destruct (IH (mkDatabase
        (<[CartItem.itemId c := InventoryItem.mk (InventoryItem.id item)
             (InventoryItem.name item) (InventoryItem.category item)
             (InventoryItem.unitPrice item)
             (InventoryItem.quantity item - CartItem.quantity c)
             (InventoryItem.lowStockThreshold item)]> (inventory db))
        (sales db) (receipts db))) as (refused & db1 & -> & Hs & Hr).
      by exists refused, db1.
Qed.

(** A loop that went through all of [lines] leaves the inventory with each
    line subtracted. *)
Lemma deductLoop_granted lines db db1 :
  deductLoop lines db = (Ok None, db1) ->
  inventory db1 = deducted lines (inventory db).
Proof.
  revert db. induction lines as [|c rest IH]; intros db.
  - by intros [= <-].
  - rewrite deductLoop_cons.
    destruct (deductStock_cases (CartItem.itemId c) (CartItem.quantity c) db)
      as [[-> _] | (item & Hitem & _ & ->)]; [done |].
    cbv zeta. intros Hrest. apply IH in Hrest. rewrite Hrest. simpl.
    f_equal. apply map_eq. intros k.
    destruct (decide (CartItem.itemId c = k)) as [<-|Hne].
    + by rewrite lookup_insert_eq, lookup_alter_eq, Hitem.
    + by rewrite lookup_insert_ne, lookup_alter_ne.
Qed.

(** The loop stops at the first refused line. *)
Lemma deductLoop_stops pre c post db db1 :
  deductLoop pre db = (Ok None, db1) ->
  deductStock (CartItem.itemId c) (CartItem.quantity c) db1 = (Ok None, db1) ->
  deductLoop (pre ++ c :: post) db = (Ok (Some c), db1).
Proof.
  revert db. induction pre as [|x pre IH]; intros db.
  - intros [= <-] Hc. by rewrite app_nil_l, deductLoop_cons, Hc.
  - rewrite <- app_comm_cons, !deductLoop_cons.
    destruct (deductStock _ _ db) as [[[?|]|] ?]; [|done..]. apply IH.
Qed.

Lemma deductLoop_refused_inv cart db c db1 :
  deductLoop cart db = (Ok (Some c), db1) ->
  exists pre post,
    cart = pre ++ c :: post /\
    deductLoop pre db = (Ok None, db1) /\
    deductStock (CartItem.itemId c) (CartItem.quantity c) db1 = (Ok None, db1).
Proof.
  revert db. induction cart as [|x rest IH]; intros db; [done |].
  rewrite deductLoop_cons.
  destruct (deductStock_cases (CartItem.itemId x) (CartItem.quantity x) db)
    as [[Hx _] | (item & _ & _ & Hx)]; rewrite Hx.
  - intros [= <- <-]. by exists [], rest.
  - cbv zeta. intros Hrest. destruct (IH _ Hrest) as (pre & post & -> & Hpre & Hc).
    exists (x :: pre), post. split_and!; [done | | done].
    by rewrite deductLoop_cons, Hx.
Qed.

(** ** Checkout, case by case *)

Section Checkout.

Variables (saleId receiptId : string) (settings : option AppSettings.t).
Variables (cart : list CartItem.t) (sellerName buyerName : string).
Variable db : Database.

Hypothesis cart_nonempty : length cart <> 0%nat.
Hypothesis seller_given : trim sellerName <> EmptyString.
Hypothesis buyer_given : trim buyerName <> EmptyString.

Lemma handleSubmit_checkout :
  handleSubmit saleId receiptId settings cart sellerName buyerName db =
    try_catch (checkout saleId receiptId settings cart sellerName buyerName)
      (fun _ => FailedToCompleteSale) db.
Proof. unfold handleSubmit. by repeat case_decide. Qed.

Lemma handleSubmit_refused c db1 :
  deductLoop cart db = (Ok (Some c), db1) ->
  handleSubmit saleId receiptId settings cart sellerName buyerName db =
    (FailedToDeductStock (CartItem.itemName c), db1).
Proof.
  intros Hloop. rewrite handleSubmit_checkout.
  unfold try_catch, checkout, bind. by rewrite Hloop.
Qed.

(** A total that is not finite reaches the store as [null], and the sale
    insert fails on it. *)
Lemma handleSubmit_total_not_finite db1 :
  deductLoop cart db = (Ok None, db1) ->
  Number.isFinite (totalAmount cart) = false ->
  handleSubmit saleId receiptId settings cart sellerName buyerName db =
    (FailedToCompleteSale, db1).
Proof.
  intros Hloop Hinf. rewrite handleSubmit_checkout.
  unfold try_catch, checkout, recordSale, bind. rewrite Hloop.
  unfold salesDB.add, Number.toJSON. simpl. by rewrite Hinf.
Qed.

Lemma handleSubmit_sale_id_taken db1 :
  deductLoop cart db = (Ok None, db1) ->
  saleId ∈ Sale.id <$> sales db ->
  handleSubmit saleId receiptId settings cart sellerName buyerName db =
    (FailedToCompleteSale, db1).
Proof.
  intros Hloop Htaken.
  destruct (Number.isFinite (totalAmount cart)) eqn:Hfin;
    [|by apply handleSubmit_total_not_finite].
  rewrite handleSubmit_checkout.
  destruct (deductLoop_total cart db) as (r & d & Hloop' & Hs & Hr).
  rewrite Hloop in Hloop'. injection Hloop' as <- <-.
  unfold try_catch, checkout, recordSale, bind. rewrite Hloop.
  unfold salesDB.add, Number.toJSON. simpl. rewrite Hfin, Hs. by case_decide.
Qed.

Lemma handleSubmit_receipt_id_taken db1 :
  deductLoop cart db = (Ok None, db1) ->
  Number.isFinite (totalAmount cart) = true ->
  saleId ∉ Sale.id <$> sales db ->
  receiptId ∈ Receipt.id <$> receipts db ->
  handleSubmit saleId receiptId settings cart sellerName buyerName db =
    (FailedToCompleteSale,
     mkDatabase (inventory db1)
       (sales db ++ [saleRow saleId cart sellerName buyerName]) (receipts db)).
Proof.
  intros Hloop Hfin Hfresh Htaken. rewrite handleSubmit_checkout.
  destruct (deductLoop_total cart db) as (r & d & Hloop' & Hs & Hr).
  rewrite Hloop in Hloop'. injection Hloop' as <- <-.
  unfold try_catch, checkout, recordSale, bind. rewrite Hloop.
  unfold salesDB.add, Number.toJSON. simpl. rewrite Hfin, Hs.
  case_decide; [done |]. unfold receiptsDB.add, Number.toJSON. simpl.
  rewrite Hfin, Hr. by case_decide.
Qed.

Lemma handleSubmit_complete db1 :
  deductLoop cart db = (Ok None, db1) ->
  Number.isFinite (totalAmount cart) = true ->
  saleId ∉ Sale.id <$> sales db ->
  receiptId ∉ Receipt.id <$> receipts db ->
  handleSubmit saleId receiptId settings cart sellerName buyerName db =
    (SaleComplete (receiptRow saleId receiptId settings cart sellerName buyerName),
     mkDatabase (inventory db1)
       (sales db ++ [saleRow saleId cart sellerName buyerName])
       (receipts db ++
          [receiptRow saleId receiptId settings cart sellerName buyerName])).
Proof.
  intros Hloop Hfin Hsale Hreceipt. rewrite handleSubmit_checkout.
  destruct (deductLoop_total cart db) as (r & d & Hloop' & Hs & Hr).
  rewrite Hloop in Hloop'. injection Hloop' as <- <-.
  unfold try_catch, checkout, recordSale, bind. rewrite Hloop.
  unfold salesDB.add, Number.toJSON. simpl. rewrite Hfin, Hs.
  case_decide; [done |]. unfold receiptsDB.add, Number.toJSON. simpl.
  rewrite Hfin, Hr. case_decide; [done |].
  case_decide as Hfk; [done |]. exfalso. apply Hfk.
  rewrite fmap_app. set_solver.
Qed.

End Checkout.

(** A checkout that ends on the receipt page went through every step. *)
Lemma handleSubmit_complete_inv saleId receiptId settings cart sellerName buyerName
    db receipt db' :
  handleSubmit saleId receiptId settings cart sellerName buyerName db =
    (SaleComplete receipt, db') ->
  length cart <> 0%nat /\ trim sellerName <> EmptyString /\
  trim buyerName <> EmptyString /\
  (saleId ∉ Sale.id <$> sales db) /\ (receiptId ∉ Receipt.id <$> receipts db) /\
  Number.isFinite (totalAmount cart) = true /\
  exists db1,
    deductLoop cart db = (Ok None, db1) /\
    receipt = receiptRow saleId receiptId settings cart sellerName buyerName /\
    db' = mkDatabase (inventory db1)
            (sales db ++ [saleRow saleId cart sellerName buyerName])
            (receipts db ++ [receipt]).
Proof.
  intros Hrun.
  destruct (decide (length cart = 0%nat)) as [Hlen|Hlen];
    [unfold handleSubmit in Hrun; by rewrite decide_True in Hrun |].
  destruct (decide (trim sellerName = EmptyString)) as [Hs|Hs];
    [unfold handleSubmit in Hrun;
     by rewrite decide_False, decide_True in Hrun |].
  destruct (decide (trim buyerName = EmptyString)) as [Hb|Hb];
    [unfold handleSubmit in Hrun;
     by rewrite decide_False, decide_False, decide_True in Hrun |].
  destruct (deductLoop_total cart db) as ([c|] & db1 & Hloop & _ & _).
  { by rewrite (handleSubmit_refused _ _ _ _ _ _ _ Hlen Hs Hb _ _ Hloop) in Hrun. }
  destruct (Number.isFinite (totalAmount cart)) eqn:Hfin.
  2: { by rewrite (handleSubmit_total_not_finite _ _ _ _ _ _ _ Hlen Hs Hb _ Hloop Hfin)
         in Hrun. }
  destruct (decide (saleId ∈ Sale.id <$> sales db)) as [Hsale|Hsale].
  { by rewrite (handleSubmit_sale_id_taken _ _ _ _ _ _ _ Hlen Hs Hb _ Hloop Hsale)
      in Hrun. }
  destruct (decide (receiptId ∈ Receipt.id <$> receipts db)) as [Hrec|Hrec].
  { by rewrite (handleSubmit_receipt_id_taken _ _ _ _ _ _ _ Hlen Hs Hb _ Hloop
                  Hfin Hsale Hrec) in Hrun. }
  rewrite (handleSubmit_complete _ _ _ _ _ _ _ Hlen Hs Hb _ Hloop Hfin Hsale Hrec)
    in Hrun.
  injection Hrun as <- <-. split_and!; try done. by exists db1.
Qed.

(** ** Validation *)

Lemma handleSubmit_rejected saleId receiptId settings cart sellerName buyerName db :
  cart = [] \/ trim sellerName = EmptyString \/ trim buyerName = EmptyString ->
  snd (handleSubmit saleId receiptId settings cart sellerName buyerName db) = db.
Proof.
  intros Hbad. unfold handleSubmit.
  destruct cart as [|c rest]; [done |].
  rewrite (decide_False (P := length (c :: rest) = 0%nat)) by done.
  destruct (decide (trim sellerName = EmptyString)); [done |].
  destruct (decide (trim buyerName = EmptyString)); [done |].
  by destruct Hbad as [?|[?|?]].
Qed.

(** C7: an empty cart, or a seller or buyer name that is empty once
    trimmed, ends the attempt with the toast of the first check that fails
    (cart, then seller, then buyer) and leaves the store as it was: no
    stock deducted, no sale, no receipt. *)
Theorem handleSubmit_validation saleId receiptId settings cart sellerName buyerName db :
  cart = [] \/ trim sellerName = EmptyString \/ trim buyerName = EmptyString ->
  snd (handleSubmit saleId receiptId settings cart sellerName buyerName db) = db /\
  fst (handleSubmit saleId receiptId settings cart sellerName buyerName db) =
    (if decide (cart = []) then EmptyCart
     else if decide (trim sellerName = EmptyString) then SellerNameRequired
     else BuyerNameRequired).
Proof.
  intros Hbad. unfold handleSubmit.
  destruct cart as [|c rest]; [done |].
  rewrite (decide_False (P := length (c :: rest) = 0%nat)) by done.
  rewrite (decide_False (P := c :: rest = [])) by done.
  destruct (decide (trim sellerName = EmptyString)); [done |].
  destruct (decide (trim buyerName = EmptyString)); [done |].
  by destruct Hbad as [?|[?|?]].
Qed.

Lemma handleSubmit_validation_witness :
  ([Sample.twoPlugs] = [] \/ trim "  " = EmptyString \/ trim "Bola" = EmptyString) /\
  snd (handleSubmit "s1" "r1" None [Sample.twoPlugs] "  " "Bola" Sample.shop)
    = Sample.shop /\
  fst (handleSubmit "s1" "r1" None [Sample.twoPlugs] "  " "Bola" Sample.shop)
    = SellerNameRequired.
Proof.
  split; [right; left; reflexivity |].
  apply (handleSubmit_validation "s1" "r1" None [Sample.twoPlugs] "  " "Bola" Sample.shop).
  right; left; reflexivity.
Defined.

(** ** A refused deduction in the middle of a cart *)

(** C1, as the claim states it, fails: with five plugs and one tyre in
    stock, a cart of two plugs and three tyres is refused at the tyres, no
    sale and no receipt is written, and the plugs stay at three instead of
    going back to five. *)
Lemma refused_cart_keeps_earlier_deductions :
  fst Sample.refusedRun = FailedToDeductStock "Tyre" /\
  sales (snd Sample.refusedRun) = [] /\
  receipts (snd Sample.refusedRun) = [] /\
  InventoryItem.quantity <$> inventory Sample.shop !! "plug" = Some 5 /\
  InventoryItem.quantity <$> inventory (snd Sample.refusedRun) !! "plug" = Some 3.
Proof. by vm_compute. Qed.

(** C1, amended: when the lines [pre] are deducted and the next line [c]
    is refused (its item is gone, or holds less than the line asks for once
    [pre] is deducted), the attempt stops there with the refusal's toast;
    no sale and no receipt is written, the lines after [c] are not touched,
    and the inventory is left with every line of [pre] subtracted (nothing
    is added back). *)
Theorem handleSubmit_refused_line saleId receiptId settings pre c post
    sellerName buyerName db db1 :
  trim sellerName <> EmptyString ->
  trim buyerName <> EmptyString ->
  deductLoop pre db = (Ok None, db1) ->
  (forall item,
     inventory db1 !! CartItem.itemId c = Some item ->
     InventoryItem.quantity item < CartItem.quantity c) ->
  handleSubmit saleId receiptId settings (pre ++ c :: post) sellerName buyerName db =
    (FailedToDeductStock (CartItem.itemName c),
     mkDatabase (deducted pre (inventory db)) (sales db) (receipts db)).
Proof.
  intros Hs Hb Hpre Hshort.
  assert (deductStock (CartItem.itemId c) (CartItem.quantity c) db1 = (Ok None, db1))
    as Hc.
  { destruct (inventory db1 !! CartItem.itemId c) as [item|] eqn:Hitem.
    - eapply deductStock_refused; [done | by apply Hshort].
    - by apply deductStock_missing. }
  assert (length (pre ++ c :: post) <> 0%nat) as Hlen
    by (rewrite length_app; simpl; lia).
  rewrite (handleSubmit_refused _ _ _ _ _ _ _ Hlen Hs Hb c db1)
    by by apply deductLoop_stops.
  destruct (deductLoop_total pre db) as (r & d & Hpre' & Hsales & Hreceipts).
  rewrite Hpre in Hpre'. injection Hpre' as <- <-.
  apply deductLoop_granted in Hpre.
  destruct db1 as [inv1 s1 r1]. simpl in *. by subst.
Qed.

Lemma handleSubmit_refused_line_witness :
  trim "Ada" <> EmptyString /\ trim "Bola" <> EmptyString /\
  deductLoop [Sample.twoPlugs] Sample.shop =
    (Ok None,
     mkDatabase (<["plug" := Sample.plugsLeft 3]> Sample.stock) [] []) /\
  (forall item,
     <["plug" := Sample.plugsLeft 3]> Sample.stock
       !! CartItem.itemId Sample.threeTyres = Some item ->
     InventoryItem.quantity item < CartItem.quantity Sample.threeTyres) /\
  handleSubmit "s1" "r1" None ([Sample.twoPlugs] ++ Sample.threeTyres :: [])
    "Ada" "Bola" Sample.shop =
    (FailedToDeductStock "Tyre",
     mkDatabase (deducted [Sample.twoPlugs] Sample.stock) [] []).
Proof.
  assert (forall item,
     <["plug" := Sample.plugsLeft 3]> Sample.stock
       !! CartItem.itemId Sample.threeTyres = Some item ->
     InventoryItem.quantity item < CartItem.quantity Sample.threeTyres) as Hshort
    by (intros item [= <-]; reflexivity).
  split; [done |]. split; [done |]. split; [by vm_compute |]. split; [exact Hshort |].
  apply (handleSubmit_refused_line "s1" "r1" None [Sample.twoPlugs] Sample.threeTyres []
           "Ada" "Bola" Sample.shop
           (mkDatabase (<["plug" := Sample.plugsLeft 3]> Sample.stock) [] [])).
  - done.
  - done.
  - by vm_compute.
  - exact Hshort.
Defined.

(** ** A request for more than the store holds *)

(** With positive line quantities the loop never restocks, so a line that
    asks for more than the store holds at the start is never granted: the
    loop ends on a refusal, of that line or of an earlier one. *)
Lemma deductLoop_insufficient cart db c item :
  positiveLines cart ->
  c ∈ cart ->
  inventory db !! CartItem.itemId c = Some item ->
  InventoryItem.quantity item < CartItem.quantity c ->
  exists f db1, deductLoop cart db = (Ok (Some f), db1).
Proof.
  unfold positiveLines. intros Hpos. revert db item.
  induction Hpos as [|x rest Hx Hrest IH]; intros db item Hin Hitem Hlt.
  { by apply elem_of_nil in Hin. }
  rewrite deductLoop_cons.
  destruct (deductStock_cases (CartItem.itemId x) (CartItem.quantity x) db)
    as [[-> _] | (itemX & HitemX & Hle & ->)]; [by eauto |].
  cbv zeta. apply elem_of_cons in Hin as [->|Hin].
  { rewrite Hitem in HitemX. injection HitemX as <-. lia. }
  destruct (decide (CartItem.itemId x = CartItem.itemId c)) as [Heq|Hne].
  - eapply IH; [done | simpl; rewrite Heq; apply lookup_insert_eq |].
    rewrite Heq, Hitem in HitemX. injection HitemX as <-. simpl. lia.
  - eapply IH; [done | simpl; by rewrite lookup_insert_ne | done].
Qed.

(** The cart builder keeps every line at one unit or more. *)
Lemma CartReachable_positive cart : CartReachable cart -> positiveLines cart.
Proof.
  unfold positiveLines.
  induction 1 as [| items selectedItemId quantity cart _ IH
                  | index delta cart _ IH | index cart _ IH].
  - constructor.
  - unfold addToCart.
    destruct (list_find _ items) as [[i selectedItem]|]; [|done].
    destruct (Z.leb_spec quantity 0) as [|Hq]; [done |].
    destruct (list_find _ cart) as [[k existing]|] eqn:Hfind.
    + destruct (_ <? _); [done |]. simpl. apply Forall_insert; [done |]. simpl.
      apply list_find_Some in Hfind as (Hk & _ & _).
      eapply Forall_lookup_1 in IH; [|done]. simpl in IH. lia.
    + destruct (_ <? _); [done |]. simpl. apply Forall_app. split; [done |].
      by apply Forall_singleton.
  - unfold updateCartQuantity, removeFromCart.
    destruct (cart !! index) as [item|]; [|done].
    destruct (Z.leb_spec (CartItem.quantity item + delta) 0) as [|Hq];
      [by apply Forall_delete |].
    destruct (_ <? _); [done |]. by apply Forall_insert.
  - by apply Forall_delete.
Qed.

(** C6: when a line of the cart asks for more units than the store holds
    of its item, the attempt ends on the toast of a refused deduction; the
    refused call writes nothing (run again on the store it left, it is
    refused again and returns that store), and no sale and no receipt is
    written.  When the line is the cart's first, the store as a whole is
    left as it was. *)
Theorem insufficient_stock_refused saleId receiptId settings cart sellerName buyerName
    db c item :
  trim sellerName <> EmptyString ->
  trim buyerName <> EmptyString ->
  positiveLines cart ->
  c ∈ cart ->
  inventory db !! CartItem.itemId c = Some item ->
  InventoryItem.quantity item < CartItem.quantity c ->
  (exists pre f post db1,
     cart = pre ++ f :: post /\
     deductLoop pre db = (Ok None, db1) /\
     deductStock (CartItem.itemId f) (CartItem.quantity f) db1 = (Ok None, db1) /\
     handleSubmit saleId receiptId settings cart sellerName buyerName db =
       (FailedToDeductStock (CartItem.itemName f), db1) /\
     sales db1 = sales db /\ receipts db1 = receipts db) /\
  (forall rest,
     cart = c :: rest ->
     handleSubmit saleId receiptId settings cart sellerName buyerName db =
       (FailedToDeductStock (CartItem.itemName c), db)).
Proof.
  intros Hs Hb Hpos Hin Hitem Hlt.
  assert (length cart <> 0%nat) as Hlen
    by (destruct cart; [by apply elem_of_nil in Hin | done]).
  split.
  - destruct (deductLoop_insufficient cart db c item Hpos Hin Hitem Hlt)
      as (f & db1 & Hloop).
    destruct (deductLoop_refused_inv _ _ _ _ Hloop) as (pre & post & -> & Hpre & Hf).
    destruct (deductLoop_total pre db) as (r & d & Hpre' & Hsales & Hreceipts).
    rewrite Hpre in Hpre'. injection Hpre' as <- <-.
    exists pre, f, post, db1. split_and!; try done.
    by apply handleSubmit_refused.
  - intros rest ->. apply handleSubmit_refused; try done.
    rewrite deductLoop_cons. by erewrite deductStock_refused.
Qed.

Lemma insufficient_stock_refused_witness :
  trim "Ada" <> EmptyString /\ trim "Bola" <> EmptyString /\
  positiveLines [Sample.fiveChains] /\
  Sample.fiveChains ∈ [Sample.fiveChains] /\
  inventory Sample.shop !! "chain" = Some Sample.chain /\
  InventoryItem.quantity Sample.chain < CartItem.quantity Sample.fiveChains /\
  handleSubmit "s1" "r1" None [Sample.fiveChains] "Ada" "Bola" Sample.shop =
    (FailedToDeductStock "Chain", Sample.shop).
Proof.
  assert (positiveLines [Sample.fiveChains]) as Hpos
    by (apply Forall_cons; split; [reflexivity | apply Forall_nil_2]).
  assert (Sample.fiveChains ∈ [Sample.fiveChains]) as Hin
    by (apply list_elem_of_singleton; reflexivity).
  split_and!; [done | done | done | done | done | done |].
  refine (proj2 (insufficient_stock_refused "s1" "r1" None [Sample.fiveChains]
                   "Ada" "Bola" Sample.shop Sample.fiveChains Sample.chain
                   _ _ Hpos Hin _ _) [] eq_refl); done.
Defined.

(** ** Receipts *)

(** C3, as the claim states it, fails: two calls of receipt creation for
    the sale "s1" store two receipts for it, the second call returning a
    receipt of its own and not the first one; the lookup by sale that would
    find the first receipt then fails on the two rows. *)
Lemma receipt_created_twice :
  receiptsDB.add "r1" SampleReceipts.request SampleReceipts.sold =
    (Ok SampleReceipts.first,
     mkDatabase Sample.stock [SampleReceipts.sale] [SampleReceipts.first]) /\
  receiptsDB.add "r2" SampleReceipts.request
    (mkDatabase Sample.stock [SampleReceipts.sale] [SampleReceipts.first]) =
    (Ok SampleReceipts.second,
     mkDatabase Sample.stock [SampleReceipts.sale]
       [SampleReceipts.first; SampleReceipts.second]) /\
  SampleReceipts.second <> SampleReceipts.first /\
  receiptsOf "s1"
    (mkDatabase Sample.stock [SampleReceipts.sale]
       [SampleReceipts.first; SampleReceipts.second]) =
    [SampleReceipts.first; SampleReceipts.second] /\
  fst (receiptsDB.getBySaleId "s1"
         (mkDatabase Sample.stock [SampleReceipts.sale]
            [SampleReceipts.first; SampleReceipts.second])) = Throw MultipleRows.
Proof. split_and!; by vm_compute. Qed.

Lemma receiptsDB_add_accepted id receipt db :
  Number.isFinite (NewReceipt.totalAmount receipt) = true ->
  id ∉ Receipt.id <$> receipts db ->
  NewReceipt.saleId receipt ∈ Sale.id <$> sales db ->
  let row :=
    Receipt.mk id (NewReceipt.saleId receipt) (NewReceipt.businessName receipt)
      (default DEFAULT_BUSINESS_ADDRESS (NewReceipt.businessAddress receipt))
      (storedSaleItem <$> NewReceipt.items receipt)
      (Number.stored (NewReceipt.totalAmount receipt))
      (NewReceipt.sellerName receipt) (NewReceipt.buyerName receipt) in
  receiptsDB.add id receipt db =
    (Ok row, mkDatabase (inventory db) (sales db) (receipts db ++ [row])).
Proof.
  intros Hfin Hfresh Hsale. unfold receiptsDB.add, Number.toJSON. rewrite Hfin.
  rewrite decide_False by done. by rewrite decide_True by done.
Qed.

(** C3, amended: receipt creation does not look for an earlier receipt of
    the sale.  Every call the store accepts (a total that is a finite
    number, an identifier not yet used, a sale that exists) appends a
    receipt of its own under the identifier generated for that call, so two
    calls for the same sale leave two more receipts for it, and
    [getBySaleId] then fails on the several rows. *)
Theorem receiptsDB_add_twice id1 id2 receipt db :
  Number.isFinite (NewReceipt.totalAmount receipt) = true ->
  NewReceipt.saleId receipt ∈ Sale.id <$> sales db ->
  id1 ∉ Receipt.id <$> receipts db ->
  id2 ∉ Receipt.id <$> receipts db ->
  id1 <> id2 ->
  exists r1 r2 db1 db2,
    receiptsDB.add id1 receipt db = (Ok r1, db1) /\
    receiptsDB.add id2 receipt db1 = (Ok r2, db2) /\
    Receipt.id r1 = id1 /\ Receipt.id r2 = id2 /\
    Receipt.saleId r1 = NewReceipt.saleId receipt /\
    Receipt.saleId r2 = NewReceipt.saleId receipt /\
    receipts db2 = receipts db ++ [r1; r2] /\
    length (receiptsOf (NewReceipt.saleId receipt) db2) =
      (length (receiptsOf (NewReceipt.saleId receipt) db) + 2)%nat /\
    fst (receiptsDB.getBySaleId (NewReceipt.saleId receipt) db2) = Throw MultipleRows.
Proof.
  intros Hfin Hsale Hid1 Hid2 Hne.
  pose proof (receiptsDB_add_accepted id1 receipt db Hfin Hid1 Hsale) as Hfirst.
  cbv zeta in Hfirst.
  set (r1 := Receipt.mk id1 _ _ _ _ _ _ _) in Hfirst.
  set (db1 := mkDatabase _ _ (receipts db ++ [r1])) in Hfirst.
  assert (id2 ∉ Receipt.id <$> receipts db1) as Hid2'.
  { simpl. rewrite fmap_app, not_elem_of_app. split; [done |].
    simpl. rewrite list_elem_of_singleton. congruence. }
  pose proof (receiptsDB_add_accepted id2 receipt db1 Hfin Hid2' Hsale) as Hsecond.
  cbv zeta in Hsecond.
  set (r2 := Receipt.mk id2 _ _ _ _ _ _ _) in Hsecond.
  exists r1, r2, db1, (mkDatabase (inventory db1) (sales db1) (receipts db1 ++ [r2])).
  assert (receiptsOf (NewReceipt.saleId receipt)
            (mkDatabase (inventory db1) (sales db1) (receipts db1 ++ [r2])) =
          receiptsOf (NewReceipt.saleId receipt) db ++ [r1; r2]) as Hof.
  { unfold receiptsOf. simpl. rewrite <- (assoc_L (++)). simpl.
    rewrite filter_app. f_equal.
    rewrite filter_cons_True by done. by rewrite filter_cons_True by done. }
  split_and!; try done.
  - simpl. by rewrite <- (assoc_L (++)).
  - rewrite Hof, length_app. reflexivity.
  - unfold receiptsDB.getBySaleId. fold (receiptsOf (NewReceipt.saleId receipt)
      (mkDatabase (inventory db1) (sales db1) (receipts db1 ++ [r2]))).
    rewrite Hof. by destruct (receiptsOf _ db) as [|? [|? ?]].
Qed.

Lemma receiptsDB_add_twice_witness :
  Number.isFinite (NewReceipt.totalAmount SampleReceipts.request) = true /\
  NewReceipt.saleId SampleReceipts.request ∈ Sale.id <$> sales SampleReceipts.sold /\
  ("r1" ∉ Receipt.id <$> receipts SampleReceipts.sold) /\
  ("r2" ∉ Receipt.id <$> receipts SampleReceipts.sold) /\
  "r1" <> "r2" /\
  exists r1 r2 db1 db2,
    receiptsDB.add "r1" SampleReceipts.request SampleReceipts.sold = (Ok r1, db1) /\
    receiptsDB.add "r2" SampleReceipts.request db1 = (Ok r2, db2) /\
    Receipt.id r1 = "r1" /\ Receipt.id r2 = "r2" /\
    Receipt.saleId r1 = "s1" /\ Receipt.saleId r2 = "s1" /\
    receipts db2 = receipts SampleReceipts.sold ++ [r1; r2] /\
    length (receiptsOf "s1" db2) = (length (receiptsOf "s1" SampleReceipts.sold) + 2)%nat /\
    fst (receiptsDB.getBySaleId "s1" db2) = Throw MultipleRows.
Proof.
  assert (NewReceipt.saleId SampleReceipts.request
            ∈ Sale.id <$> sales SampleReceipts.sold) as Hsale
    by (apply list_elem_of_singleton; reflexivity).
  assert ("r1" ∉ Receipt.id <$> receipts SampleReceipts.sold) as H1
    by (apply not_elem_of_nil).
  assert ("r2" ∉ Receipt.id <$> receipts SampleReceipts.sold) as H2
    by (apply not_elem_of_nil).
  assert ("r1" <> "r2") as Hne by discriminate.
  assert (Number.isFinite (NewReceipt.totalAmount SampleReceipts.request) = true)
    as Hfin by reflexivity.
  split_and!; [done | done | done | done | done |].
  exact (receiptsDB_add_twice "r1" "r2" SampleReceipts.request SampleReceipts.sold
           Hfin Hsale H1 H2 Hne).
Defined.

(** ** Trimming *)

Lemma trimStart_first s c :
  firstChar (trimStart s) = Some c -> isWhiteSpace c = false.
Proof.
  induction s as [|a s IH]; [done |]. simpl.
  destruct (isWhiteSpace a) eqn:Ha; [done |]. simpl. congruence.
Qed.

Lemma trimEnd_first s c :
  firstChar (trimEnd s) = Some c -> firstChar s = Some c.
Proof.
  destruct s as [|a s]; [done |]. simpl.
  destruct (trimEnd s); [destruct (isWhiteSpace a) |]; done.
Qed.

Lemma trimEnd_last s c :
  lastChar (trimEnd s) = Some c -> isWhiteSpace c = false.
Proof.
  induction s as [|a s IH]; [done |]. simpl.
  destruct (trimEnd s) as [|b t] eqn:Ht.
  - destruct (isWhiteSpace a) eqn:Ha; [done |]. simpl. congruence.
  - intros Hlast. apply IH. exact Hlast.
Qed.

(** A trimmed string neither starts nor ends with white space. *)
Lemma trim_outer_chars s c :
  firstChar (trim s) = Some c \/ lastChar (trim s) = Some c ->
  isWhiteSpace c = false.
Proof.
  unfold trim. intros [Hfirst|Hlast].
  - by eapply trimStart_first, trimEnd_first.
  - by eapply trimEnd_last.
Qed.

(** ** What a completed sale writes *)

(** C9: the seller and buyer names of the sale and of the receipt that a
    completed checkout writes are the trimmed inputs, and so carry no white
    space at either end. *)
Theorem persisted_names_trimmed saleId receiptId settings cart sellerName buyerName
    db receipt db' :
  handleSubmit saleId receiptId settings cart sellerName buyerName db =
    (SaleComplete receipt, db') ->
  exists sale,
    sales db' = sales db ++ [sale] /\
    receipts db' = receipts db ++ [receipt] /\
    Receipt.saleId receipt = Sale.id sale /\
    Sale.sellerName sale = trim sellerName /\
    Sale.buyerName sale = trim buyerName /\
    Receipt.sellerName receipt = trim sellerName /\
    Receipt.buyerName receipt = trim buyerName /\
    forall n c,
      n ∈ [Sale.sellerName sale; Sale.buyerName sale;
           Receipt.sellerName receipt; Receipt.buyerName receipt] ->
      firstChar n = Some c \/ lastChar n = Some c ->
      isWhiteSpace c = false.
Proof.
  intros Hrun.
  apply handleSubmit_complete_inv in Hrun
    as (_ & _ & _ & _ & _ & _ & db1 & _ & -> & ->).
  exists (saleRow saleId cart sellerName buyerName).
  split_and!; try done.
  intros n c Hn. simpl in Hn.
  repeat (apply elem_of_cons in Hn as [->|Hn]); try by apply trim_outer_chars.
  by apply elem_of_nil in Hn.
Qed.

Lemma persisted_names_trimmed_witness :
  Sample.completeRun =
    (SaleComplete Sample.completeReceipt,
     mkDatabase (deducted [Sample.twoPlugs] Sample.stock)
       [Sample.completeSale]
       [Sample.completeReceipt]) /\
  exists sale,
    [Sample.completeSale]
      = [] ++ [sale] /\
    [Sample.completeReceipt] = [] ++ [Sample.completeReceipt] /\
    Receipt.saleId Sample.completeReceipt = Sale.id sale /\
    Sale.sellerName sale = trim "  Ada " /\
    Sale.buyerName sale = trim " Bola" /\
    Receipt.sellerName Sample.completeReceipt = trim "  Ada " /\
    Receipt.buyerName Sample.completeReceipt = trim " Bola" /\
    forall n c,
      n ∈ [Sale.sellerName sale; Sale.buyerName sale;
           Receipt.sellerName Sample.completeReceipt;
           Receipt.buyerName Sample.completeReceipt] ->
      firstChar n = Some c \/ lastChar n = Some c ->
      isWhiteSpace c = false.
Proof.
  assert (Sample.completeRun =
    (SaleComplete Sample.completeReceipt,
     mkDatabase (deducted [Sample.twoPlugs] Sample.stock)
       [Sample.completeSale]
       [Sample.completeReceipt])) as Hrun by (by vm_compute).
  split; [exact Hrun |].
  exact (persisted_names_trimmed "s1" "r1" (Some Sample.settings) [Sample.twoPlugs]
           "  Ada " " Bola" Sample.shop _ _ Hrun).
Defined.

(** C5, at a sale that completes while the settings hold the address
    "12 Market Road, Aba": the receipt duplicates the sale's lines, total,
    seller and buyer and carries the settings' business name, but its
    address is the column default of the receipts table, not the settings'
    address: [handleSubmit] hands no [businessAddress] to
    [receiptsDB.add]. *)
Lemma receipt_address_not_from_settings :
  fst Sample.completeRun = SaleComplete Sample.completeReceipt /\
  AppSettings.businessName Sample.settings = "Nigro Automobiles" /\
  Receipt.businessName Sample.completeReceipt = "Nigro Automobiles" /\
  AppSettings.businessAddress Sample.settings = "12 Market Road, Aba" /\
  Receipt.businessAddress Sample.completeReceipt = "56 Iwofe Road, Rumuopirikom, PHC" /\
  Receipt.businessAddress Sample.completeReceipt
    <> AppSettings.businessAddress Sample.settings.
Proof. split_and!; by vm_compute. Qed.

(** Whatever the settings, the receipt of a completed sale copies the sale
    and takes the default address. *)
Lemma receipt_copies_sale saleId receiptId settings cart sellerName buyerName
    db receipt db' :
  handleSubmit saleId receiptId settings cart sellerName buyerName db =
    (SaleComplete receipt, db') ->
  exists sale,
    sales db' = sales db ++ [sale] /\
    receipts db' = receipts db ++ [receipt] /\
    Receipt.saleId receipt = Sale.id sale /\
    Receipt.items receipt = Sale.items sale /\
    Receipt.totalAmount receipt = Sale.totalAmount sale /\
    Receipt.sellerName receipt = Sale.sellerName sale /\
    Receipt.buyerName receipt = Sale.buyerName sale /\
    Receipt.businessName receipt =
      or_else (AppSettings.businessName <$> settings) "Keke Spare Parts" /\
    Receipt.businessAddress receipt = DEFAULT_BUSINESS_ADDRESS.
Proof.
  intros Hrun.
  apply handleSubmit_complete_inv in Hrun
    as (_ & _ & _ & _ & _ & _ & db1 & _ & -> & ->).
  by exists (saleRow saleId cart sellerName buyerName).
Qed.

(** C10: when the settings are missing, or hold an empty business name,
    a checkout whose cart and names pass the checks, whose lines are all
    granted, whose total is a finite number and whose generated
    identifiers are unused completes, and its receipt carries the fallback
    business name 'Keke Spare Parts'.  More generally it completes whenever
    it would complete with settings at hand, leaving the same store but for
    the receipt's business name. *)
Theorem missing_settings_fallback saleId receiptId settings cart
    sellerName buyerName db :
  settings = None \/ AppSettings.businessName <$> settings = Some EmptyString ->
  (forall db1,
     length cart <> 0%nat ->
     trim sellerName <> EmptyString ->
     trim buyerName <> EmptyString ->
     deductLoop cart db = (Ok None, db1) ->
     Number.isFinite (totalAmount cart) = true ->
     saleId ∉ Sale.id <$> sales db ->
     receiptId ∉ Receipt.id <$> receipts db ->
     exists sale receipt,
       handleSubmit saleId receiptId settings cart sellerName buyerName db =
         (SaleComplete receipt,
          mkDatabase (inventory db1) (sales db ++ [sale]) (receipts db ++ [receipt])) /\
       Receipt.saleId receipt = Sale.id sale /\
       Receipt.businessName receipt = "Keke Spare Parts") /\
  (forall settings0 receipt0 db0,
     handleSubmit saleId receiptId settings0 cart sellerName buyerName db =
       (SaleComplete receipt0, db0) ->
     exists receipt,
       handleSubmit saleId receiptId settings cart sellerName buyerName db =
         (SaleComplete receipt,
          mkDatabase (inventory db0) (sales db0) (receipts db ++ [receipt])) /\
       receipt =
         Receipt.mk (Receipt.id receipt0) (Receipt.saleId receipt0) "Keke Spare Parts"
           (Receipt.businessAddress receipt0) (Receipt.items receipt0)
           (Receipt.totalAmount receipt0) (Receipt.sellerName receipt0)
           (Receipt.buyerName receipt0)).
Proof.
  intros Hmissing.
  assert (or_else (AppSettings.businessName <$> settings) "Keke Spare Parts"
          = "Keke Spare Parts") as Hname
    by (destruct Hmissing as [-> | ->]; reflexivity).
  split.
  - intros db1 Hlen Hs Hb Hloop Hfin Hsale Hrec.
    exists (saleRow saleId cart sellerName buyerName),
           (receiptRow saleId receiptId settings cart sellerName buyerName).
    split_and!; [by apply handleSubmit_complete | done | exact Hname].
  - intros settings0 receipt0 db0 Hrun.
    apply handleSubmit_complete_inv in Hrun
      as (Hlen & Hs & Hb & Hsale & Hrec & Hfin & db1 & Hloop & -> & ->).
    exists (receiptRow saleId receiptId settings cart sellerName buyerName).
    split.
    + simpl. by apply handleSubmit_complete.
    + unfold receiptRow. simpl. by rewrite Hname.
Qed.

Lemma missing_settings_fallback_witness :
  (@None AppSettings.t = None \/
   AppSettings.businessName <$> @None AppSettings.t = Some EmptyString) /\
  handleSubmit "s1" "r1" None [Sample.twoPlugs] "  Ada " " Bola" Sample.shop =
    (SaleComplete
       (Receipt.mk "r1" "s1" "Keke Spare Parts" "56 Iwofe Road, Rumuopirikom, PHC"
          [Sample.soldPlugs] (Number.ofZ 200) "Ada" "Bola"),
     mkDatabase (deducted [Sample.twoPlugs] Sample.stock)
       [Sample.completeSale]
       [Receipt.mk "r1" "s1" "Keke Spare Parts" "56 Iwofe Road, Rumuopirikom, PHC"
          [Sample.soldPlugs] (Number.ofZ 200) "Ada" "Bola"]).
Proof.
  split; [by left |].
  assert (handleSubmit "s1" "r1" (Some Sample.settings) [Sample.twoPlugs]
            "  Ada " " Bola" Sample.shop =
          (SaleComplete Sample.completeReceipt,
           mkDatabase (deducted [Sample.twoPlugs] Sample.stock)
             [Sample.completeSale]
             [Sample.completeReceipt])) as Hrun by (by vm_compute).
  destruct (proj2 (missing_settings_fallback "s1" "r1" None
                     [Sample.twoPlugs] "  Ada " " Bola" Sample.shop
                     (or_introl eq_refl))
              (Some Sample.settings) _ _ Hrun) as (receipt & Hnone & ->).
  exact Hnone.
Defined.

(** ** Totals *)

(** The page's running total is the sum, from left to right, of the line
    totals it hands to the store. *)
Lemma totalAmount_sum cart : totalAmount cart = lineTotalsSum (saleItems cart).
Proof.
  unfold totalAmount, lineTotalsSum, saleItems. generalize Number.zero.
  induction cart as [|c rest IH]; intros acc; [done |]. simpl. apply IH.
Qed.

(** Every cart operation keeps each line's total at the product of its
    quantity and its unit price: a total is computed anew from the
    quantity whenever the quantity changes. *)
Lemma addToCart_rounded items selectedItemId quantity cart :
  Forall cartLineRounded cart ->
  Forall cartLineRounded (fst (addToCart items selectedItemId quantity cart)).
Proof.
  intros Hcart. unfold addToCart.
  destruct (list_find _ items) as [[i selectedItem]|]; [|done].
  destruct (quantity <=? 0); [done |].
  destruct (list_find _ cart) as [[k existing]|].
  - destruct (_ <? _); [done |]. simpl. by apply Forall_insert.
  - destruct (_ <? _); [done |]. simpl. apply Forall_app. split; [done |].
    by apply Forall_singleton.
Qed.

Lemma updateCartQuantity_rounded index delta cart :
  Forall cartLineRounded cart ->
  Forall cartLineRounded (updateCartQuantity index delta cart).
Proof.
  intros Hcart. unfold updateCartQuantity, removeFromCart.
  destruct (cart !! index) as [item|]; [|done].
  destruct (_ <=? 0); [by apply Forall_delete |].
  destruct (_ <? _); [done |]. by apply Forall_insert.
Qed.

Lemma CartReachable_rounded cart :
  CartReachable cart -> Forall cartLineRounded cart.
Proof.
  induction 1 as [| ? ? ? ? _ IH | ? ? ? _ IH | ? ? _ IH].
  - constructor.
  - by apply addToCart_rounded.
  - by apply updateCartQuantity_rounded.
  - by apply Forall_delete.
Qed.

Lemma saleItems_rounded cart :
  Forall cartLineRounded cart -> Forall lineRounded (saleItems cart).
Proof. unfold saleItems. intros Hcart. by apply Forall_fmap. Qed.

(** Where every line's total is that product, the running total is the
    cart's value. *)
Lemma totalAmount_cartValue cart :
  Forall cartLineRounded cart -> totalAmount cart = cartValue cart.
Proof.
  intros Hcart. unfold totalAmount, cartValue. generalize Number.zero.
  induction Hcart as [|c rest Hc _ IH]; intros acc; [done |]. simpl.
  rewrite Hc. apply IH.
Qed.

(** C4, as the claim states it, fails: prices are binary64 numbers, and the
    page multiplies and adds them as such.  Three units of oil at 0.1 and
    one of grease at 0.2, put in the cart by [addToCart], are sold; the
    sale in the store carries 0.30000000000000004 as the total of the first
    line, which is not three times its unit price, and 0.5 as its total,
    which is not the sum of its two line totals. *)
Lemma persisted_totals_not_exact :
  SampleFractions.tenth = SFdiv Number.prec Number.emax (Number.ofZ 1) (Number.ofZ 10) /\
  SampleFractions.fifth = SFdiv Number.prec Number.emax (Number.ofZ 2) (Number.ofZ 10) /\
  fst (addToCart SampleFractions.items "grease" 1
         (fst (addToCart SampleFractions.items "oil" 3 []))) = SampleFractions.cart /\
  fst SampleFractions.run = SaleComplete SampleFractions.receipt /\
  sales (snd SampleFractions.run) = [SampleFractions.sale] /\
  Sale.items SampleFractions.sale =
    [StoredSaleItem.mk "oil" "Oil" 3
       (Some SampleFractions.tenth) (Some SampleFractions.threeTenths);
     StoredSaleItem.mk "grease" "Grease" 1
       (Some SampleFractions.fifth) (Some SampleFractions.fifth)] /\
  Sale.totalAmount SampleFractions.sale = SampleFractions.half /\
  units SampleFractions.threeTenths <> 3 * units SampleFractions.tenth /\
  units SampleFractions.half <>
    units SampleFractions.threeTenths + units SampleFractions.fifth.
Proof. split_and!; by vm_compute. Qed.

(** C4, amended: for a cart built by the cart operations, the sale that a
    completed checkout writes holds the cart's lines as [JSON.stringify]
    writes them; each line's total is the product of its quantity and its
    unit price as binary64 arithmetic rounds it, and the sale's total is the
    sum of the line totals, added from left to right and rounded at each
    step; that sum is a finite number. *)
Theorem persisted_sale_rounded saleId receiptId settings cart sellerName buyerName
    db receipt db' :
  CartReachable cart ->
  handleSubmit saleId receiptId settings cart sellerName buyerName db =
    (SaleComplete receipt, db') ->
  exists sale,
    sales db' = sales db ++ [sale] /\
    Sale.id sale = Receipt.saleId receipt /\
    Sale.items sale = storedSaleItem <$> saleItems cart /\
    Forall lineRounded (saleItems cart) /\
    Number.isFinite (lineTotalsSum (saleItems cart)) = true /\
    Sale.totalAmount sale = Number.stored (lineTotalsSum (saleItems cart)).
Proof.
  intros Hcart%CartReachable_rounded Hrun.
  apply handleSubmit_complete_inv in Hrun
    as (_ & _ & _ & _ & _ & Hfin & db1 & _ & -> & ->).
  exists (saleRow saleId cart sellerName buyerName).
  rewrite <- totalAmount_sum. split_and!; try done.
  by apply saleItems_rounded.
Qed.

Lemma persisted_sale_rounded_witness :
  CartReachable SampleFractions.cart /\
  SampleFractions.run =
    (SaleComplete SampleFractions.receipt,
     mkDatabase (deducted SampleFractions.cart (inventory SampleFractions.shop))
       [SampleFractions.sale] [SampleFractions.receipt]) /\
  exists sale,
    [SampleFractions.sale] = [] ++ [sale] /\
    Sale.id sale = Receipt.saleId SampleFractions.receipt /\
    Sale.items sale = storedSaleItem <$> saleItems SampleFractions.cart /\
    Forall lineRounded (saleItems SampleFractions.cart) /\
    Number.isFinite (lineTotalsSum (saleItems SampleFractions.cart)) = true /\
    Sale.totalAmount sale =
      Number.stored (lineTotalsSum (saleItems SampleFractions.cart)).
Proof.
  assert (CartReachable SampleFractions.cart) as Hcart.
  { change SampleFractions.cart
      with (fst (addToCart SampleFractions.items "grease" 1
                   (fst (addToCart SampleFractions.items "oil" 3 [])))).
    apply reach_add, reach_add, reach_empty. }
  assert (SampleFractions.run =
    (SaleComplete SampleFractions.receipt,
     mkDatabase (deducted SampleFractions.cart (inventory SampleFractions.shop))
       [SampleFractions.sale] [SampleFractions.receipt])) as Hrun by (by vm_compute).
  split; [exact Hcart |]. split; [exact Hrun |].
  exact (persisted_sale_rounded "s1" "r1" None SampleFractions.cart "Ada" "Bola"
           SampleFractions.shop _ _ Hcart Hrun).
Defined.

(** ** Adding a line to the cart *)

(** C8, as the claim states it, fails on two counts.  A call for zero
    units of an item that is not in the cart passes the bound check
    (0 <= 5) and yet appends no line.  And a line that is in the cart is
    checked against the availability recorded when it was first added, not
    against the item's quantity as the page now knows it: with three plugs
    now known and a line of two plugs recorded against five, three more
    plugs are accepted. *)
Lemma addToCart_guard_and_recorded_bound :
  addToCart [Sample.plug] "plug" 0 [] = ([], NoToast) /\
  addToCart [Sample.plugsLeft 3] "plug" 3
    [Sample.twoPlugs] =
    ([Sample.fivePlugs], AddedToCart 3 "Spark plug").
Proof. split; by vm_compute. Qed.

(** C8, amended: a call for a positive quantity of an item the page knows
    either raises the first line of that item by the requested quantity
    (its total recomputed), when the new quantity does not exceed the
    availability recorded on that line, or appends a line for the item,
    when the cart has none and the quantity does not exceed the item's
    known quantity; past the bound the cart is unchanged and the toast is
    'Insufficient Stock'.  A call for an unknown item or for a quantity
    that is not positive changes nothing and shows no toast. *)
Theorem addToCart_line items selectedItemId quantity cart :
  (Forall (fun i => InventoryItem.id i <> selectedItemId) items \/ quantity <= 0 ->
   addToCart items selectedItemId quantity cart = (cart, NoToast)) /\
  (forall i selectedItem,
     list_find (fun it => InventoryItem.id it = selectedItemId) items
       = Some (i, selectedItem) ->
     0 < quantity ->
     (forall k existing,
        firstLineOf selectedItemId cart k existing ->
        (CartItem.quantity existing + quantity <= CartItem.availableQty existing ->
         addToCart items selectedItemId quantity cart =
           (<[k := CartItem.mk (CartItem.itemId existing) (CartItem.itemName existing)
                     (CartItem.quantity existing + quantity)
                     (CartItem.unitPrice existing)
                     (Number.mul
                        (Number.ofZ (CartItem.quantity existing + quantity))
                        (CartItem.unitPrice existing))
                     (CartItem.availableQty existing)]> cart,
            AddedToCart quantity (InventoryItem.name selectedItem))) /\
        (CartItem.availableQty existing < CartItem.quantity existing + quantity ->
         addToCart items selectedItemId quantity cart =
           (cart, InsufficientStock (CartItem.availableQty existing)
                    (InventoryItem.name selectedItem)))) /\
     (notInCart selectedItemId cart ->
      (quantity <= InventoryItem.quantity selectedItem ->
       addToCart items selectedItemId quantity cart =
         (cart ++ [CartItem.mk selectedItemId (InventoryItem.name selectedItem)
                     quantity (InventoryItem.unitPrice selectedItem)
                     (Number.mul (Number.ofZ quantity)
                        (InventoryItem.unitPrice selectedItem))
                     (InventoryItem.quantity selectedItem)],
          AddedToCart quantity (InventoryItem.name selectedItem))) /\
      (InventoryItem.quantity selectedItem < quantity ->
       addToCart items selectedItemId quantity cart =
         (cart, InsufficientStock (InventoryItem.quantity selectedItem)
                  (InventoryItem.name selectedItem))))).
Proof.
  split.
  - intros [Hunknown|Hq]; unfold addToCart.
    + by rewrite (proj2 (list_find_None _ items) Hunknown).
    + destruct (list_find _ items) as [[i selectedItem]|]; [|done].
      by destruct (Z.leb_spec quantity 0); [|lia].
  - intros i selectedItem Hfind Hq.
    pose proof Hfind as (_ & Hid & _)%list_find_Some.
    unfold addToCart. rewrite Hfind.
    destruct (Z.leb_spec quantity 0) as [|_]; [lia |]. rewrite Hid. split.
    + intros k existing (Hk & Hitem & Hfirst).
      assert (list_find (fun c => CartItem.itemId c = selectedItemId) cart
              = Some (k, existing)) as ->
        by (apply list_find_Some; split_and!; done).
      split; intros Hbound.
      * by destruct (Z.ltb_spec (CartItem.availableQty existing)
                       (CartItem.quantity existing + quantity)); [lia |].
      * by destruct (Z.ltb_spec (CartItem.availableQty existing)
                       (CartItem.quantity existing + quantity)); [| lia].
    + intros Hnot. rewrite (proj2 (list_find_None _ cart) Hnot).
      split; intros Hbound.
      * by destruct (Z.ltb_spec (InventoryItem.quantity selectedItem) quantity);
          [lia |].
      * by destruct (Z.ltb_spec (InventoryItem.quantity selectedItem) quantity);
          [| lia].
Qed.

Lemma addToCart_line_witness :
  list_find (fun it => InventoryItem.id it = "plug") [Sample.tyre; Sample.plug]
    = Some (1%nat, Sample.plug) /\
  0 < 3 /\
  firstLineOf "plug" [Sample.threeTyres; Sample.twoPlugs] 1 Sample.twoPlugs /\
  CartItem.quantity Sample.twoPlugs + 3 <= CartItem.availableQty Sample.twoPlugs /\
  addToCart [Sample.tyre; Sample.plug] "plug" 3 [Sample.threeTyres; Sample.twoPlugs] =
    ([Sample.threeTyres; Sample.fivePlugs],
     AddedToCart 3 "Spark plug").
Proof.
  assert (firstLineOf "plug" [Sample.threeTyres; Sample.twoPlugs] 1 Sample.twoPlugs)
    as Hline.
  { split_and!; [done | done |].
    intros [|j] y Hy Hj; [injection Hy as <-; discriminate | lia]. }
  split_and!; [done | done | exact Hline | done |].
  exact (proj1 (proj1 (proj2 (addToCart_line [Sample.tyre; Sample.plug] "plug" 3
                                [Sample.threeTyres; Sample.twoPlugs])
                         1%nat Sample.plug eq_refl eq_refl)
                  1%nat Sample.twoPlugs Hline)
           ltac:(done)).
Defined.

(** ** Two devices deducting from one item *)

Import Interleaving.

(** Left alone for its two steps, a call is [deductStock]. *)
Lemma deductStock_two_steps itemId quantity other db :
  run [true; true] (Reading itemId quantity, other, db) =
    (Returned (fst (deductStock itemId quantity db)), other,
     snd (deductStock itemId quantity db)).
Proof.
  unfold run, next, step, inventoryDB.getById. simpl.
  destruct (deductStock_cases itemId quantity db)
    as [[-> [Hnone | (item & Hitem & Hlt)]] | (item & Hitem & Hle & ->)].
  - by rewrite Hnone.
  - rewrite Hitem.
    by destruct (Z.ltb_spec (InventoryItem.quantity item) quantity); [| lia].
  - rewrite Hitem.
    destruct (Z.ltb_spec (InventoryItem.quantity item) quantity); [lia |].
    unfold inventoryDB.updateQuantity. by rewrite Hitem.
Qed.

Lemma run_app s1 s2 st : run (s1 ++ s2) st = run s2 (run s1 st).
Proof. unfold run. apply foldl_app. Qed.

(** A set of states that the steps do not leave holds every state that
    the schedules reach from it. *)
Lemma run_closed (sts : list State) (P : State -> Prop) schedule st :
  closed sts -> Forall P sts -> st ∈ sts -> P (run schedule st).
Proof.
  intros Hclosed HP. revert st.
  induction schedule as [|b s IH]; intros st Hst.
  - by eapply Forall_forall in HP.
  - change (run (b :: s) st) with (run s (next b st)). apply IH.
    eapply Forall_forall in Hclosed as [Htrue Hfalse]; [|done].
    by destruct b.
Qed.

Ltac by_evaluation := apply (bool_decide_unpack _); by vm_compute.

Lemma from_start_closed : closed (explore 4 [start]).
Proof. by_evaluation. Qed.

Lemma from_serial_closed :
  closed (explore 1 [firstThenSecond]) /\ closed (explore 1 [secondThenFirst]).
Proof. split; by_evaluation. Qed.

Lemma from_bothRead_closed : closed (explore 2 [bothRead]).
Proof. by_evaluation. Qed.

Lemma from_start_stock :
  Forall (fun st => stockNotNegative st = true /\
                    (bothReturned st = true -> stockIsTwo st = true))
    (explore 4 [start]).
Proof. by_evaluation. Qed.

Lemma from_firstThenSecond_outcome :
  Forall (fun st => returned (snd (fst st)) = true ->
                    outcome [true; true] (fst (fst st)) (snd (fst st)))
    (explore 1 [firstThenSecond]).
Proof. by_evaluation. Qed.

Lemma from_secondThenFirst_outcome :
  Forall (fun st => returned (fst (fst st)) = true ->
                    outcome [false; false] (fst (fst st)) (snd (fst st)))
    (explore 1 [secondThenFirst]).
Proof. by_evaluation. Qed.

Lemma from_bothRead_outcome :
  Forall (fun st => bothReturned st = true ->
                    outcome [true; false] (fst (fst st)) (snd (fst st)))
    (explore 2 [bothRead]).
Proof. by_evaluation. Qed.

(** C2, as the claim states it, fails: when both calls read the five
    plugs before either writes, both are granted their three plugs and
    both write two; the stock shows two, with six plugs handed out. *)
Lemma both_calls_granted :
  granted (fst (fst (run [true; false; true; false] start))) = true /\
  granted (snd (fst (run [true; false; true; false] start))) = true /\
  stockOf "plug" (snd (run [true; false; true; false] start)) = Some 2.
Proof. split_and!; by vm_compute. Qed.

(** In that schedule neither attempt is told of a shortage: each goes on
    to record its sale of three plugs, and the store ends with two sales
    and two receipts for six plugs out of five. *)
Lemma both_attempts_recorded :
  recordSale "s1" "r1" None [Sample.threePlugs] "Ada" "Bola"
    (snd (run [true; false; true; false] start)) =
    (Ok (SaleComplete (receiptRow "s1" "r1" None [Sample.threePlugs] "Ada" "Bola")),
     Sample.afterFirstSale) /\
  recordSale "s2" "r2" None [Sample.threePlugs] "Chi" "Dayo" Sample.afterFirstSale =
    (Ok (SaleComplete (receiptRow "s2" "r2" None [Sample.threePlugs] "Chi" "Dayo")),
     mkDatabase (inventory Sample.afterFirstSale)
       [saleRow "s1" [Sample.threePlugs] "Ada" "Bola";
        saleRow "s2" [Sample.threePlugs] "Chi" "Dayo"]
       [receiptRow "s1" "r1" None [Sample.threePlugs] "Ada" "Bola";
        receiptRow "s2" "r2" None [Sample.threePlugs] "Chi" "Dayo"]) /\
  stockOf "plug" Sample.afterFirstSale = Some 2.
Proof. split_and!; by vm_compute. Qed.

(** C2, amended: with five units in stock and two calls for three units
    each, the stock is never negative, and once both calls have returned
    it is two.  When one call runs as a whole before the other reads, that
    call is granted and the other refused.  The read and the write of a
    call are two store calls with no lock between them: when both calls
    read before either writes, both are granted. *)
Theorem two_calls_for_three schedule c1 c2 db' :
  run schedule start = (c1, c2, db') ->
  (exists q, stockOf "plug" db' = Some q /\ 0 <= q) /\
  (returned c1 = true -> returned c2 = true ->
   stockOf "plug" db' = Some 2 /\ outcome schedule c1 c2).
Proof.
  intros Hrun.
  assert (start ∈ explore 4 [start]) as Hstart by by_evaluation.
  pose proof (run_closed _ _ schedule start from_start_closed from_start_stock Hstart)
    as [Hstock Htwo].
  rewrite Hrun in Hstock, Htwo. unfold stockNotNegative in Hstock. simpl in Hstock.
  split.
  { destruct (stockOf "plug" db') as [q|]; [|done]. exists q. split; [done | lia]. }
  intros Hc1 Hc2. split.
  { assert (bothReturned (c1, c2, db') = true) as Hboth
      by (unfold bothReturned; simpl; by rewrite Hc1, Hc2).
    apply Htwo in Hboth. unfold stockIsTwo in Hboth.
    by apply bool_decide_eq_true in Hboth. }
  destruct schedule as [|b1 [|b2 s]].
  - injection Hrun as <- <- <-. done.
  - destruct b1; injection Hrun as <- <- <-; done.
  - change (b1 :: b2 :: s) with ([b1; b2] ++ s) in Hrun. rewrite run_app in Hrun.
    destruct b1, b2.
    + assert (firstThenSecond ∈ explore 1 [firstThenSecond]) as Hin by by_evaluation.
      pose proof (run_closed _ _ s _ (proj1 from_serial_closed)
                    from_firstThenSecond_outcome Hin) as Hout.
      fold firstThenSecond in Hrun. rewrite Hrun in Hout. by apply Hout.
    + assert (bothRead ∈ explore 2 [bothRead]) as Hin by by_evaluation.
      pose proof (run_closed _ _ s _ from_bothRead_closed
                    from_bothRead_outcome Hin) as Hout.
      fold bothRead in Hrun. rewrite Hrun in Hout. apply Hout.
      unfold bothReturned. simpl. by rewrite Hc1, Hc2.
    + assert (bothRead ∈ explore 2 [bothRead]) as Hin by by_evaluation.
      pose proof (run_closed _ _ s _ from_bothRead_closed
                    from_bothRead_outcome Hin) as Hout.
      assert (run [false; true] start = bothRead) as Hsame by by vm_compute.
      rewrite Hsame in Hrun. rewrite Hrun in Hout. apply Hout.
      unfold bothReturned. simpl. by rewrite Hc1, Hc2.
    + assert (secondThenFirst ∈ explore 1 [secondThenFirst]) as Hin by by_evaluation.
      pose proof (run_closed _ _ s _ (proj2 from_serial_closed)
                    from_secondThenFirst_outcome Hin) as Hout.
      fold secondThenFirst in Hrun. rewrite Hrun in Hout. by apply Hout.
Qed.

Lemma two_calls_for_three_witness :
  run [true; true; false; false] start =
    (Returned (Ok (Some (Sample.plugsLeft 2))),
     Returned (Ok None),
     mkDatabase (<["plug" := Sample.plugsLeft 2]> Sample.stock) [] []) /\
  stockOf "plug"
    (mkDatabase (<["plug" := Sample.plugsLeft 2]> Sample.stock) [] []) = Some 2 /\
  outcome [true; true; false; false]
    (Returned (Ok (Some (Sample.plugsLeft 2))))
    (Returned (Ok None)).
Proof.
  assert (run [true; true; false; false] start =
    (Returned (Ok (Some (Sample.plugsLeft 2))),
     Returned (Ok None),
     mkDatabase (<["plug" := Sample.plugsLeft 2]> Sample.stock) [] [])) as Hrun
    by (by vm_compute).
  split; [exact Hrun |].
  exact (proj2 (two_calls_for_three [true; true; false; false] _ _ _ Hrun)
           eq_refl eq_refl).
Defined.


(** * Further properties of the store and of the pages *)

(** ** Inventory management *)

Lemma inventoryDB_add_accepted id item db :
  storable item ->
  inventory db !! id = None ->
  let row :=
    InventoryItem.mk id (NewInventoryItem.name item) (NewInventoryItem.category item)
      (Number.stored (NewInventoryItem.unitPrice item))
      (NewInventoryItem.quantity item) (NewInventoryItem.lowStockThreshold item) in
  inventoryDB.add id item db =
    (Ok row, mkDatabase (<[id := row]> (inventory db)) (sales db) (receipts db)).
Proof.
  intros (Hq & Ht & Hp) Hfresh. unfold inventoryDB.add, Number.toJSON.
  by rewrite Hq, Ht, Hp, Hfresh.
Qed.

(** X1: an item the store can hold (a quantity and a threshold within the
    INTEGER range, a price that is a finite number), added under an unused
    identifier, is what [getById] then returns for it, its price as the
    store read it; every other item, the sales and the receipts are as
    they were.  Under an identifier that is taken the insert fails on the
    key, and an item the store cannot hold is refused: in both cases the
    store is unchanged. *)
Theorem inventoryDB_add_getById id item db :
  (storable item ->
   inventory db !! id = None ->
   exists row db',
     inventoryDB.add id item db = (Ok row, db') /\
     inventoryDB.getById id db' = (Ok (Some row), db') /\
     row = InventoryItem.mk id (NewInventoryItem.name item)
             (NewInventoryItem.category item)
             (Number.stored (NewInventoryItem.unitPrice item))
             (NewInventoryItem.quantity item)
             (NewInventoryItem.lowStockThreshold item) /\
     (forall k, k <> id ->
        inventoryDB.getById k db' = (Ok (inventory db !! k), db')) /\
     sales db' = sales db /\ receipts db' = receipts db) /\
  (storable item ->
   is_Some (inventory db !! id) ->
   inventoryDB.add id item db = (Throw UniqueViolation, db)) /\
  (~ storable item ->
   exists e, inventoryDB.add id item db = (Throw e, db)).
Proof.
  split_and!.
  - intros Hitem Hfresh.
    pose proof (inventoryDB_add_accepted id item db Hitem Hfresh) as Hadd.
    cbv zeta in Hadd. eexists _, _. split; [exact Hadd |].
    unfold inventoryDB.getById. simpl. split_and!; try done.
    + by rewrite lookup_insert_eq.
    + intros k Hk. by rewrite lookup_insert_ne.
  - intros (Hq & Ht & Hp) [row Hrow]. unfold inventoryDB.add, Number.toJSON.
    by rewrite Hq, Ht, Hp, Hrow.
  - intros Hnot. unfold inventoryDB.add, Number.toJSON, storable in *.
    destruct (isInteger32 (NewInventoryItem.quantity item));
      [|by eexists].
    destruct (isInteger32 (NewInventoryItem.lowStockThreshold item));
      [|by eexists].
    destruct (Number.isFinite (NewInventoryItem.unitPrice item));
      [|by eexists].
    by destruct Hnot.
Qed.

Lemma inventoryDB_add_getById_witness :
  storable SampleStock.bulb /\
  inventory Sample.shop !! "bulb" = None /\
  exists row db',
    inventoryDB.add "bulb" SampleStock.bulb Sample.shop = (Ok row, db') /\
    inventoryDB.getById "bulb" db' = (Ok (Some row), db') /\
    row = SampleStock.bulbRow.
Proof.
  assert (storable SampleStock.bulb) as Hitem by done.
  assert (inventory Sample.shop !! "bulb" = None) as Hfresh by reflexivity.
  split; [exact Hitem |]. split; [exact Hfresh |].
  destruct (proj1 (inventoryDB_add_getById "bulb" SampleStock.bulb Sample.shop)
              Hitem Hfresh)
    as (row & db' & Hadd & Hget & Hrow & _).
  exists row, db'. by split_and!.
Defined.



(** X3: deleting an item the store can hold, just after it was added
    under an unused identifier, gives back the store as it was before the
    insert. *)
Theorem inventoryDB_add_delete id item db :
  storable item ->
  inventory db !! id = None ->
  exists row db1,
    inventoryDB.add id item db = (Ok row, db1) /\
    inventoryDB.delete id db1 = (Ok tt, db).
Proof.
  intros Hitem Hfresh.
  pose proof (inventoryDB_add_accepted id item db Hitem Hfresh) as Hadd.
  cbv zeta in Hadd. eexists _, _. split; [exact Hadd |].
  unfold inventoryDB.delete. simpl. f_equal.
  destruct db as [inv s r]. simpl in *. f_equal.
  by apply delete_insert_id.
Qed.

Lemma inventoryDB_add_delete_witness :
  storable SampleStock.bulb /\
  inventory Sample.shop !! "bulb" = None /\
  exists row db1,
    inventoryDB.add "bulb" SampleStock.bulb Sample.shop = (Ok row, db1) /\
    inventoryDB.delete "bulb" db1 = (Ok tt, Sample.shop).
Proof.
  assert (storable SampleStock.bulb) as Hitem by done.
  assert (inventory Sample.shop !! "bulb" = None) as Hfresh by reflexivity.
  split; [exact Hitem |]. split; [exact Hfresh |].
  exact (inventoryDB_add_delete "bulb" SampleStock.bulb Sample.shop Hitem Hfresh).
Defined.

(** X4: an update that carries at least one column and only values the
    store can hold (a quantity and a threshold within the INTEGER range, a
    price that is a finite number), on an item that exists, rewrites the
    columns it carries and keeps the others and the identifier; [getById]
    then returns the rewritten row, every other item is untouched, and
    sending the same update again changes nothing more. *)
Theorem inventoryDB_update_getById id updates db row :
  inventory db !! id = Some row ->
  inventoryDB.noColumn updates = false ->
  storableUpdates updates ->
  exists row' db',
    inventoryDB.update id updates db = (Ok (Some row'), db') /\
    inventoryDB.getById id db' = (Ok (Some row'), db') /\
    InventoryItem.id row' = InventoryItem.id row /\
    InventoryItem.name row' =
      default (InventoryItem.name row) (InventoryUpdates.name updates) /\
    InventoryItem.category row' =
      default (InventoryItem.category row) (InventoryUpdates.category updates) /\
    InventoryItem.unitPrice row' =
      default (InventoryItem.unitPrice row)
        (Number.stored <$> InventoryUpdates.unitPrice updates) /\
    InventoryItem.quantity row' =
      default (InventoryItem.quantity row) (InventoryUpdates.quantity updates) /\
    InventoryItem.lowStockThreshold row' =
      default (InventoryItem.lowStockThreshold row)
        (InventoryUpdates.lowStockThreshold updates) /\
    (forall k, k <> id -> inventory db' !! k = inventory db !! k) /\
    sales db' = sales db /\ receipts db' = receipts db /\
    inventoryDB.update id updates db' = (Ok (Some row'), db').
Proof.
  intros Hrow Hcol (Hq & Ht & Hp).
  destruct updates as [n c pr q t]. simpl in Hq, Ht, Hp.
  assert (from_option isInteger32 true q && from_option isInteger32 true t = true)
    as Hrange.
  { destruct q, t; simpl; rewrite ?(Hq _ eq_refl), ?(Ht _ eq_refl); done. }
  assert (from_option Number.isFinite true pr = true) as Hfin.
  { destruct pr as [p|]; [|done]. simpl. by apply Hp. }
  unfold inventoryDB.update at 1. simpl. rewrite Hcol, Hrange, Hrow, Hfin. simpl.
  eexists _, _. split; [reflexivity |].
  unfold inventoryDB.getById. simpl. rewrite lookup_insert_eq.
  split_and!; try done.
  - intros k Hk. by rewrite lookup_insert_ne.
  - unfold inventoryDB.update. simpl. rewrite Hcol, Hrange, Hfin. simpl.
    rewrite lookup_insert_eq. simpl.
    rewrite insert_insert_eq. destruct n, c, pr, q, t; reflexivity.
Qed.

Lemma inventoryDB_update_getById_witness :
  inventory Sample.shop !! "plug" = Some Sample.plug /\
  inventoryDB.noColumn SampleStock.reprice = false /\
  storableUpdates SampleStock.reprice /\
  exists row' db',
    inventoryDB.update "plug" SampleStock.reprice Sample.shop = (Ok (Some row'), db') /\
    inventoryDB.getById "plug" db' = (Ok (Some row'), db') /\
    InventoryItem.unitPrice row' = Number.ofZ 120 /\
    InventoryItem.quantity row' = 5.
Proof.
  assert (inventory Sample.shop !! "plug" = Some Sample.plug) as Hrow by reflexivity.
  assert (inventoryDB.noColumn SampleStock.reprice = false) as Hcol by reflexivity.
  assert (storableUpdates SampleStock.reprice) as Hup
    by (split_and!; intros ? Heq; try discriminate Heq;
        injection Heq as <-; reflexivity).
  split; [exact Hrow |]. split; [exact Hcol |]. split; [exact Hup |].
  destruct (inventoryDB_update_getById "plug" SampleStock.reprice Sample.shop
              Sample.plug Hrow Hcol Hup)
    as (row' & db' & Hupd & Hget & _ & _ & _ & Hprice & Hqty & _).
  exists row', db'. by split_and!.
Defined.

(** X5: once an item is deleted, [getById] finds nothing under its
    identifier and a deduction on it is refused, so a checkout whose
    first line is that item ends on the refusal's toast and changes
    nothing; the delete touches no other item, no sale and no receipt, and
    deleting an identifier that is not there changes nothing. *)
Theorem deleted_item_cannot_be_sold saleId receiptId settings c rest
    sellerName buyerName id db :
  CartItem.itemId c = id ->
  trim sellerName <> EmptyString ->
  trim buyerName <> EmptyString ->
  exists db1,
    inventoryDB.delete id db = (Ok tt, db1) /\
    inventoryDB.getById id db1 = (Ok None, db1) /\
    (forall q, deductStock id q db1 = (Ok None, db1)) /\
    handleSubmit saleId receiptId settings (c :: rest) sellerName buyerName db1 =
      (FailedToDeductStock (CartItem.itemName c), db1) /\
    (forall k, k <> id -> inventory db1 !! k = inventory db !! k) /\
    sales db1 = sales db /\ receipts db1 = receipts db /\
    (inventory db !! id = None -> db1 = db).
Proof.
  intros Hid Hs Hb. unfold inventoryDB.delete. eexists. split; [reflexivity |].
  set (db1 := mkDatabase _ _ _).
  assert (inventory db1 !! id = None) as Hgone by apply lookup_delete_eq.
  split_and!; try done.
  - unfold inventoryDB.getById. by rewrite Hgone.
  - intros q. by apply deductStock_missing.
  - apply handleSubmit_refused; try done.
    rewrite deductLoop_cons, Hid. by rewrite deductStock_missing.
  - intros k Hk. simpl. by rewrite lookup_delete_ne.
  - intros Hnone. unfold db1. destruct db as [inv s r]. simpl in *.
    by rewrite delete_id.
Qed.

Lemma deleted_item_cannot_be_sold_witness :
  CartItem.itemId Sample.twoPlugs = "plug" /\
  trim "Ada" <> EmptyString /\ trim "Bola" <> EmptyString /\
  exists db1,
    inventoryDB.delete "plug" Sample.shop = (Ok tt, db1) /\
    handleSubmit "s1" "r1" None [Sample.twoPlugs] "Ada" "Bola" db1 =
      (FailedToDeductStock "Spark plug", db1).
Proof.
  split; [reflexivity |]. split; [done |]. split; [done |].
  destruct (deleted_item_cannot_be_sold "s1" "r1" None Sample.twoPlugs [] "Ada" "Bola"
              "plug" Sample.shop eq_refl ltac:(done) ltac:(done))
    as (db1 & Hdel & _ & _ & Hrun & _).
  by exists db1.
Defined.

(** ** What a checkout keeps *)

(** The ways an attempt can end, with the store each leaves. *)
Lemma handleSubmit_cases saleId receiptId settings cart sellerName buyerName db :
  (snd (handleSubmit saleId receiptId settings cart sellerName buyerName db) = db) \/
  exists refused db1,
    deductLoop cart db = (Ok refused, db1) /\
    sales db1 = sales db /\ receipts db1 = receipts db /\
    ((snd (handleSubmit saleId receiptId settings cart sellerName buyerName db) = db1) \/
     (refused = None /\
      (saleId ∉ Sale.id <$> sales db) /\
      (receiptId ∈ Receipt.id <$> receipts db) /\
      handleSubmit saleId receiptId settings cart sellerName buyerName db =
        (FailedToCompleteSale,
         mkDatabase (inventory db1)
           (sales db ++ [saleRow saleId cart sellerName buyerName]) (receipts db))) \/
     (refused = None /\
      (saleId ∉ Sale.id <$> sales db) /\
      (receiptId ∉ Receipt.id <$> receipts db) /\
      handleSubmit saleId receiptId settings cart sellerName buyerName db =
        (SaleComplete (receiptRow saleId receiptId settings cart sellerName buyerName),
         mkDatabase (inventory db1)
           (sales db ++ [saleRow saleId cart sellerName buyerName])
           (receipts db ++
              [receiptRow saleId receiptId settings cart sellerName buyerName])))).
Proof.
  destruct (decide (cart = [] \/ trim sellerName = EmptyString \/
                    trim buyerName = EmptyString)) as [Hbad|Hgood].
  { left. by apply handleSubmit_rejected. }
  assert (length cart <> 0%nat) as Hlen
    by (intros ?%nil_length_inv; apply Hgood; by left).
  assert (trim sellerName <> EmptyString) as Hs by (intros ?; apply Hgood; auto).
  assert (trim buyerName <> EmptyString) as Hb by (intros ?; apply Hgood; auto).
  right.
  destruct (deductLoop_total cart db) as (refused & db1 & Hloop & Hsales & Hreceipts).
  exists refused, db1. split_and!; try done.
  destruct refused as [c|].
  { left. by rewrite (handleSubmit_refused _ _ _ _ _ _ _ Hlen Hs Hb _ _ Hloop). }
  destruct (Number.isFinite (totalAmount cart)) eqn:Hfin.
  2: { left.
       by rewrite (handleSubmit_total_not_finite _ _ _ _ _ _ _ Hlen Hs Hb _ Hloop Hfin). }
  destruct (decide (saleId ∈ Sale.id <$> sales db)) as [Hsale|Hsale].
  { left.
    by rewrite (handleSubmit_sale_id_taken _ _ _ _ _ _ _ Hlen Hs Hb _ Hloop Hsale). }
  destruct (decide (receiptId ∈ Receipt.id <$> receipts db)) as [Hrec|Hrec].
  - right. left. split_and!; try done.
    by apply handleSubmit_receipt_id_taken.
  - right. right. split_and!; try done.
    by apply handleSubmit_complete.
Qed.

(** One deduction, then the loop, keep the inventory's shape. *)
Lemma deductStock_inventory itemId quantity db :
  exists db1 result,
    deductStock itemId quantity db = (Ok result, db1) /\
    sales db1 = sales db /\ receipts db1 = receipts db /\
    onlyQuantitiesChanged db db1 /\
    (stockNotBelowZero db -> stockNotBelowZero db1).
Proof.
  destruct (deductStock_cases itemId quantity db)
    as [[-> _] | (item & Hitem & Hle & ->)].
  - exists db, None. split_and!; try done.
    intros k. by destruct (inventory db !! k).
  - cbv zeta. eexists _, _. split; [reflexivity |]. simpl. split_and!; try done.
    + intros k. simpl. destruct (decide (itemId = k)) as [<-|Hne].
      * by rewrite lookup_insert_eq, Hitem.
      * rewrite lookup_insert_ne by done. by destruct (inventory db !! k).
    + intros Hstock k row. simpl. destruct (decide (itemId = k)) as [<-|Hne].
      * rewrite lookup_insert_eq. intros [= <-]. simpl. lia.
      * rewrite lookup_insert_ne by done. apply Hstock.
Qed.

Lemma onlyQuantitiesChanged_trans db1 db2 db3 :
  onlyQuantitiesChanged db1 db2 -> onlyQuantitiesChanged db2 db3 ->
  onlyQuantitiesChanged db1 db3.
Proof.
  intros H12 H23 k. specialize (H12 k). specialize (H23 k).
  destruct (inventory db1 !! k), (inventory db2 !! k), (inventory db3 !! k);
    try done.
  destruct H12 as (? & ? & ? & ? & ?), H23 as (? & ? & ? & ? & ?).
  split_and!; congruence.
Qed.

Lemma deductLoop_inventory cart db refused db1 :
  deductLoop cart db = (Ok refused, db1) ->
  onlyQuantitiesChanged db db1 /\
  (stockNotBelowZero db -> stockNotBelowZero db1).
Proof.
  revert db. induction cart as [|c rest IH]; intros db.
  - intros [= <- <-]. split; [|done]. intros k. by destruct (inventory db !! k).
  - rewrite deductLoop_cons.
    destruct (deductStock_inventory (CartItem.itemId c) (CartItem.quantity c) db)
      as (db2 & result & -> & _ & _ & Hshape & Hstock).
    destruct result as [row|].
    + intros Hrest. apply IH in Hrest as [Hshape' Hstock'].
      split; [by eapply onlyQuantitiesChanged_trans | auto].
    + intros [= <- <-]. done.
Qed.

Lemma wellFormed_inventory db db1 :
  wellFormed db -> onlyQuantitiesChanged db db1 ->
  sales db1 = sales db -> receipts db1 = receipts db ->
  wellFormed db1.
Proof.
  intros (Hs & Hr & Hfk & Hkey) Hshape Hsales Hreceipts.
  unfold wellFormed. rewrite Hsales, Hreceipts. split_and!; try done.
  intros k item' Hitem'. specialize (Hshape k). rewrite Hitem' in Hshape.
  destruct (inventory db !! k) as [item|] eqn:Hitem; [|done].
  destruct Hshape as (-> & _). by apply Hkey.
Qed.

Lemma Sample_shop_wellFormed : wellFormed Sample.shop /\ stockNotBelowZero Sample.shop.
Proof.
  split.
  - split_and!; [constructor | constructor | by intros r ?%elem_of_nil |].
    apply (bool_decide_unpack
             (map_Forall (fun k item => InventoryItem.id item = k) Sample.stock)).
    by vm_compute.
  - apply (bool_decide_unpack
             (map_Forall (fun _ item => 0 <= InventoryItem.quantity item)
                Sample.stock)).
    by vm_compute.
Qed.

(** X6: a checkout, however it ends, keeps the store well formed: sale and
    receipt identifiers stay keys, every receipt references a sale that
    exists, and each inventory row stays under its own identifier. *)
Theorem handleSubmit_wellFormed saleId receiptId settings cart sellerName buyerName db :
  wellFormed db ->
  wellFormed (snd (handleSubmit saleId receiptId settings cart sellerName buyerName db)).
Proof.
  intros Hwf.
  destruct (handleSubmit_cases saleId receiptId settings cart sellerName buyerName db)
    as [-> | (refused & db1 & Hloop & Hsales & Hreceipts & Hcase)]; [done |].
  apply deductLoop_inventory in Hloop as [Hshape _].
  pose proof (wellFormed_inventory db db1 Hwf Hshape Hsales Hreceipts)
    as (Hs & Hr & Hfk & Hkey).
  rewrite Hsales in Hs. rewrite Hreceipts in Hr, Hfk. rewrite Hsales in Hfk.
  destruct Hcase as [-> | [(_ & Hsale & _ & ->) | (_ & Hsale & Hrec & ->)]].
  - by apply (wellFormed_inventory db db1).
  - unfold wellFormed. simpl. split_and!; try done.
    + rewrite fmap_app. apply NoDup_app. split_and!; [done | | apply NoDup_singleton].
      intros x Hx ->%list_elem_of_singleton. done.
    + intros r Hin. rewrite fmap_app, elem_of_app. left. by apply Hfk.
  - unfold wellFormed. simpl. split_and!; try done.
    + rewrite fmap_app. apply NoDup_app. split_and!; [done | | apply NoDup_singleton].
      intros x Hx ->%list_elem_of_singleton. done.
    + rewrite fmap_app. apply NoDup_app. split_and!; [done | | apply NoDup_singleton].
      intros x Hx ->%list_elem_of_singleton. done.
    + intros r [Hin | ->%list_elem_of_singleton]%elem_of_app;
        rewrite fmap_app, elem_of_app.
      * left. by apply Hfk.
      * right. simpl. by apply list_elem_of_singleton.
Qed.

Lemma handleSubmit_wellFormed_witness :
  wellFormed Sample.shop /\ wellFormed (snd Sample.completeRun).
Proof.
  split; [exact (proj1 Sample_shop_wellFormed) |].
  exact (handleSubmit_wellFormed "s1" "r1" (Some Sample.settings) [Sample.twoPlugs]
           "  Ada " " Bola" Sample.shop (proj1 Sample_shop_wellFormed)).
Defined.

(** X7: a checkout never drives an item below zero: whatever the cart,
    the names and the outcome, a store in which no quantity is negative is
    left in such a state (a deduction is only written when the item holds
    at least what is asked). *)
Theorem handleSubmit_stock_not_below_zero saleId receiptId settings cart
    sellerName buyerName db :
  stockNotBelowZero db ->
  stockNotBelowZero
    (snd (handleSubmit saleId receiptId settings cart sellerName buyerName db)).
Proof.
  intros Hstock.
  destruct (handleSubmit_cases saleId receiptId settings cart sellerName buyerName db)
    as [-> | (refused & db1 & Hloop & Hsales & Hreceipts & Hcase)]; [done |].
  apply deductLoop_inventory in Hloop as [_ Hstock1]. specialize (Hstock1 Hstock).
  destruct Hcase as [-> | [(_ & _ & _ & ->) | (_ & _ & _ & ->)]]; done.
Qed.

Lemma handleSubmit_stock_not_below_zero_witness :
  stockNotBelowZero Sample.shop /\ stockNotBelowZero (snd Sample.refusedRun).
Proof.
  split; [exact (proj2 Sample_shop_wellFormed) |].
  exact (handleSubmit_stock_not_below_zero "s1" "r1" (Some Sample.settings)
           [Sample.twoPlugs; Sample.threeTyres] "Ada" "Bola" Sample.shop
           (proj2 Sample_shop_wellFormed)).
Defined.

(** X8: a checkout only appends: the sales and receipts that were in the
    store stay, in place; it adds at most one sale and at most one receipt,
    a receipt only together with the sale it references; and it creates or
    removes no inventory item and changes none in anything but its
    quantity. *)
Theorem handleSubmit_appends saleId receiptId settings cart sellerName buyerName db :
  exists newSales newReceipts,
    sales (snd (handleSubmit saleId receiptId settings cart sellerName buyerName db))
      = sales db ++ newSales /\
    receipts (snd (handleSubmit saleId receiptId settings cart sellerName buyerName db))
      = receipts db ++ newReceipts /\
    (length newReceipts <= length newSales <= 1)%nat /\
    (forall r, r ∈ newReceipts ->
       exists s, s ∈ newSales /\ Receipt.saleId r = Sale.id s) /\
    onlyQuantitiesChanged db
      (snd (handleSubmit saleId receiptId settings cart sellerName buyerName db)).
Proof.
  assert (onlyQuantitiesChanged db db) as Hrefl
    by (intros k; by destruct (inventory db !! k)).
  destruct (handleSubmit_cases saleId receiptId settings cart sellerName buyerName db)
    as [-> | (refused & db1 & Hloop & Hsales & Hreceipts & Hcase)].
  { exists [], []. rewrite !app_nil_r.
    split_and!; try done; try (simpl; lia). by intros r ?%elem_of_nil. }
  apply deductLoop_inventory in Hloop as [Hshape _].
  destruct Hcase as [-> | [(_ & _ & _ & ->) | (_ & _ & _ & ->)]].
  - exists [], []. rewrite !app_nil_r.
    split_and!; try done; try (simpl; lia). by intros r ?%elem_of_nil.
  - exists [saleRow saleId cart sellerName buyerName], []. simpl.
    rewrite !app_nil_r. split_and!; try done; try lia.
    by intros r ?%elem_of_nil.
  - exists [saleRow saleId cart sellerName buyerName],
           [receiptRow saleId receiptId settings cart sellerName buyerName].
    simpl. split_and!; try done; try lia.
    intros r ->%list_elem_of_singleton.
    exists (saleRow saleId cart sellerName buyerName).
    split; [by apply list_elem_of_singleton | done].
Qed.

(** Where every receipt references a sale of the store, a sale identifier
    that is not in the store has no receipt. *)
Lemma receiptsOf_unknown_sale saleId (saleIds : list string) (rs : list Receipt.t) :
  saleId ∉ saleIds ->
  (forall r, r ∈ rs -> Receipt.saleId r ∈ saleIds) ->
  filter (fun r => Receipt.saleId r = saleId) rs = [].
Proof.
  intros Hfresh. induction rs as [|r rs IH]; intros Hfk; [done |].
  rewrite filter_cons_False.
  - apply IH. intros r' Hr'. apply Hfk. by apply elem_of_cons; right.
  - intros Heq. apply Hfresh. rewrite <- Heq. apply Hfk. by apply elem_of_cons; left.
Qed.

(** X9: a checkout never gives a sale a second receipt: in a well-formed
    store where no sale has two receipts, no sale has two receipts after
    the attempt (it writes a receipt only for the sale it has just
    inserted under an unused identifier). *)
Theorem handleSubmit_oneReceiptPerSale saleId receiptId settings cart
    sellerName buyerName db :
  wellFormed db ->
  oneReceiptPerSale db ->
  oneReceiptPerSale
    (snd (handleSubmit saleId receiptId settings cart sellerName buyerName db)).
Proof.
  intros (_ & _ & Hfk & _) Hone.
  destruct (handleSubmit_cases saleId receiptId settings cart sellerName buyerName db)
    as [-> | (refused & db1 & Hloop & Hsales & Hreceipts & Hcase)]; [done |].
  assert (oneReceiptPerSale db1) as Hone1.
  { intros sid. unfold receiptsOf. rewrite Hreceipts. apply Hone. }
  destruct Hcase as [-> | [(_ & _ & _ & ->) | (_ & Hsale & _ & ->)]]; [done | done |].
  intros sid. unfold receiptsOf. simpl. rewrite filter_app, length_app.
  destruct (decide (sid = saleId)) as [->|Hne].
  - assert (filter (fun r => Receipt.saleId r = saleId) (receipts db) = []) as ->.
    { by apply (receiptsOf_unknown_sale saleId (Sale.id <$> sales db)). }
    rewrite filter_cons_True by done. simpl. lia.
  - rewrite filter_cons_False by (simpl; congruence). simpl.
    specialize (Hone sid). unfold receiptsOf in Hone. lia.
Qed.

Lemma handleSubmit_oneReceiptPerSale_witness :
  wellFormed Sample.shop /\ oneReceiptPerSale Sample.shop /\
  oneReceiptPerSale (snd Sample.completeRun).
Proof.
  assert (oneReceiptPerSale Sample.shop) as Hone by (intros sid; simpl; lia).
  split; [exact (proj1 Sample_shop_wellFormed) |]. split; [exact Hone |].
  exact (handleSubmit_oneReceiptPerSale "s1" "r1" (Some Sample.settings)
           [Sample.twoPlugs] "  Ada " " Bola" Sample.shop
           (proj1 Sample_shop_wellFormed) Hone).
Defined.

(** ** The cart builder *)

Lemma cart_insert_itemIds (cart : list CartItem.t) k old new :
  cart !! k = Some old ->
  CartItem.itemId new = CartItem.itemId old ->
  CartItem.itemId <$> <[k := new]> cart = CartItem.itemId <$> cart.
Proof.
  intros Hk Hid. rewrite list_fmap_insert. apply list_insert_id.
  by rewrite list_lookup_fmap, Hk, Hid.
Qed.

(** The invariant of the cart builder, by induction on how the cart was
    built. *)
Lemma CartReachable_invariant cart :
  CartReachable cart ->
  NoDup (CartItem.itemId <$> cart) /\ Forall cartLineBounded cart.
Proof.
  induction 1 as [| items selectedItemId quantity cart _ [IHd IHb]
                  | index delta cart _ [IHd IHb] | index cart _ [IHd IHb]].
  - split; constructor.
  - unfold addToCart.
    destruct (list_find _ items) as [[i selectedItem]|]; [|done].
    destruct (Z.leb_spec quantity 0) as [|Hq]; [done |].
    destruct (list_find _ cart) as [[k existing]|] eqn:Hfind.
    + destruct (Z.ltb_spec (CartItem.availableQty existing)
                  (CartItem.quantity existing + quantity)) as [|Hle]; [done |].
      apply list_find_Some in Hfind as (Hk & _ & _). simpl. split.
      * by erewrite cart_insert_itemIds.
      * apply Forall_insert; [done |].
        eapply Forall_lookup_1 in IHb; [|done].
        unfold cartLineBounded in *. simpl. lia.
    + destruct (Z.ltb_spec (InventoryItem.quantity selectedItem) quantity)
        as [|Hle]; [done |].
      apply list_find_None in Hfind. simpl. split.
      * rewrite fmap_app. apply NoDup_app. split_and!; [done | | apply NoDup_singleton].
        intros x Hx Hx'. apply list_elem_of_fmap in Hx as (c & -> & Hc).
        simpl in Hx'. apply list_elem_of_singleton in Hx'.
        eapply Forall_forall in Hfind; [|done]. by apply Hfind.
      * apply Forall_app. split; [done |]. apply Forall_singleton.
        unfold cartLineBounded. simpl. lia.
  - unfold updateCartQuantity, removeFromCart.
    destruct (cart !! index) as [item|] eqn:Hitem; [|done].
    destruct (Z.leb_spec (CartItem.quantity item + delta) 0) as [|Hq].
    { split; [|by apply Forall_delete].
      rewrite list_fmap_delete. eapply sublist_NoDup; [done | apply sublist_delete]. }
    destruct (Z.ltb_spec (CartItem.availableQty item)
                (CartItem.quantity item + delta)) as [|Hle]; [done |].
    split.
    + by erewrite cart_insert_itemIds.
    + apply Forall_insert; [done |]. unfold cartLineBounded. simpl. lia.
  - unfold removeFromCart. split; [|by apply Forall_delete].
    rewrite list_fmap_delete. eapply sublist_NoDup; [done | apply sublist_delete].
Qed.

(** X10: in every cart that the cart operations build, no item has two
    lines (two positions that hold the same item are one position), and
    every line asks for at least one unit and for no more than the
    availability recorded on it. *)
Theorem CartReachable_distinct_bounded cart :
  CartReachable cart ->
  (forall i j c d,
     cart !! i = Some c -> cart !! j = Some d ->
     CartItem.itemId c = CartItem.itemId d -> i = j) /\
  (forall c, c ∈ cart -> cartLineBounded c).
Proof.
  intros [Hdup Hbound]%CartReachable_invariant. split.
  - intros i j c d Hi Hj Hid.
    apply (proj1 (NoDup_alt _) Hdup i j (CartItem.itemId c)).
    + by rewrite list_lookup_fmap, Hi.
    + by rewrite list_lookup_fmap, Hj, Hid.
  - intros c Hc. by eapply Forall_forall in Hbound.
Qed.

Lemma CartReachable_distinct_bounded_witness :
  CartReachable
    (fst (addToCart [Sample.tyre; Sample.plug] "plug" 3
            (fst (addToCart [Sample.tyre; Sample.plug] "plug" 2 [])))) /\
  fst (addToCart [Sample.tyre; Sample.plug] "plug" 3
         (fst (addToCart [Sample.tyre; Sample.plug] "plug" 2 []))) =
    [Sample.fivePlugs] /\
  cartLineBounded Sample.fivePlugs.
Proof.
  assert (CartReachable
    (fst (addToCart [Sample.tyre; Sample.plug] "plug" 3
            (fst (addToCart [Sample.tyre; Sample.plug] "plug" 2 []))))) as Hcart
    by (apply reach_add, reach_add, reach_empty).
  split; [exact Hcart |]. split; [reflexivity |].
  apply (proj2 (CartReachable_distinct_bounded _ Hcart)).
  apply list_elem_of_singleton. reflexivity.
Defined.




(** X12: adjusting a line by [delta] and then by [-delta] gives back the
    cart as it was, totals included, whenever the quantity in between is
    accepted (at least one unit, no more than the availability recorded on
    the line): the line's total is computed from its quantity and not from
    its previous total, so no rounding is carried along. *)
Theorem updateCartQuantity_there_and_back index delta cart line :
  CartReachable cart ->
  cart !! index = Some line ->
  0 < CartItem.quantity line + delta <= CartItem.availableQty line ->
  updateCartQuantity index delta cart =
    <[index := CartItem.mk (CartItem.itemId line) (CartItem.itemName line)
                 (CartItem.quantity line + delta) (CartItem.unitPrice line)
                 (Number.mul (Number.ofZ (CartItem.quantity line + delta))
                    (CartItem.unitPrice line))
                 (CartItem.availableQty line)]> cart /\
  updateCartQuantity index (- delta) (updateCartQuantity index delta cart) = cart.
Proof.
  intros Hcart Hline [Hpos Hle].
  pose proof (CartReachable_rounded cart Hcart) as Hrounded.
  pose proof (CartReachable_invariant cart Hcart) as [_ Hbound].
  eapply Forall_lookup_1 in Hrounded; [|done].
  eapply Forall_lookup_1 in Hbound; [|done].
  unfold cartLineRounded in Hrounded. unfold cartLineBounded in Hbound.
  assert (updateCartQuantity index delta cart =
    <[index := CartItem.mk (CartItem.itemId line) (CartItem.itemName line)
                 (CartItem.quantity line + delta) (CartItem.unitPrice line)
                 (Number.mul (Number.ofZ (CartItem.quantity line + delta))
                    (CartItem.unitPrice line))
                 (CartItem.availableQty line)]> cart) as Hthere.
  { unfold updateCartQuantity. rewrite Hline.
    destruct (Z.leb_spec (CartItem.quantity line + delta) 0); [lia |].
    by destruct (Z.ltb_spec (CartItem.availableQty line)
                   (CartItem.quantity line + delta)); [lia |]. }
  split; [exact Hthere |]. rewrite Hthere. unfold updateCartQuantity.
  rewrite list_lookup_insert_eq by (by eapply lookup_lt_Some). simpl.
  replace (CartItem.quantity line + delta + - delta) with (CartItem.quantity line)
    by lia.
  destruct (Z.leb_spec (CartItem.quantity line) 0); [lia |].
  destruct (Z.ltb_spec (CartItem.availableQty line) (CartItem.quantity line));
    [lia |].
  rewrite list_insert_insert_eq. apply list_insert_id.
  rewrite Hline. f_equal. destruct line. simpl in *. by rewrite Hrounded.
Qed.

Lemma updateCartQuantity_there_and_back_witness :
  CartReachable (fst (addToCart SampleFractions.items "oil" 3 [])) /\
  fst (addToCart SampleFractions.items "oil" 3 []) !! 0%nat =
    Some (CartItem.mk "oil" "Oil" 3 SampleFractions.tenth SampleFractions.threeTenths 5) /\
  0 < 3 + 2 <= 5 /\
  updateCartQuantity 0 (- 2)
    (updateCartQuantity 0 2 (fst (addToCart SampleFractions.items "oil" 3 []))) =
    fst (addToCart SampleFractions.items "oil" 3 []).
Proof.
  assert (CartReachable (fst (addToCart SampleFractions.items "oil" 3 []))) as Hcart
    by (apply reach_add, reach_empty).
  split; [exact Hcart |]. split; [reflexivity |]. split; [lia |].
  refine (proj2 (updateCartQuantity_there_and_back 0 2 _
                   (CartItem.mk "oil" "Oil" 3 SampleFractions.tenth
                      SampleFractions.threeTenths 5) Hcart eq_refl _)).
  simpl. lia.
Defined.




(** ** A sale, line by line *)

Lemma deductLoop_lines cart db db1 :
  NoDup (CartItem.itemId <$> cart) ->
  deductLoop cart db = (Ok None, db1) ->
  (forall c, c ∈ cart ->
     exists item,
       inventory db !! CartItem.itemId c = Some item /\
       CartItem.quantity c <= InventoryItem.quantity item /\
       inventory db1 !! CartItem.itemId c =
         Some (InventoryItem.mk (InventoryItem.id item) (InventoryItem.name item)
                 (InventoryItem.category item) (InventoryItem.unitPrice item)
                 (InventoryItem.quantity item - CartItem.quantity c)
                 (InventoryItem.lowStockThreshold item))) /\
  (forall k, k ∉ CartItem.itemId <$> cart -> inventory db1 !! k = inventory db !! k).
Proof.
  revert db. induction cart as [|x rest IH]; intros db Hdup.
  - intros [= <-]. split; [|done]. by intros c ?%elem_of_nil.
  - rewrite fmap_cons in Hdup. apply NoDup_cons in Hdup as [Hx Hdup].
    rewrite deductLoop_cons.
    destruct (deductStock_cases (CartItem.itemId x) (CartItem.quantity x) db)
      as [[-> _] | (item & Hitem & Hle & ->)]; [done |].
    cbv zeta. intros Hrest. destruct (IH _ Hdup Hrest) as [Hlines Hother]. split.
    + intros c [->|Hc]%elem_of_cons.
      * exists item. split_and!; [done | done |].
        rewrite (Hother _ Hx). simpl. apply lookup_insert_eq.
      * destruct (Hlines c Hc) as (itemC & HitemC & HleC & HC).
        assert (CartItem.itemId x <> CartItem.itemId c) as Hne.
        { intros Heq. apply Hx. rewrite Heq. apply list_elem_of_fmap. eauto. }
        simpl in HitemC. rewrite lookup_insert_ne in HitemC by done. eauto.
    + intros k Hk. rewrite fmap_cons, not_elem_of_cons in Hk. destruct Hk as [Hkx Hk].
      rewrite (Hother _ Hk). simpl. by rewrite lookup_insert_ne.
Qed.

(** X14: a completed sale takes each line's quantity off its item, and
    nothing else: for a cart with one line per item, every line's item
    held at least the line's quantity and holds that much less after the
    sale, its other columns unchanged, and the items that are not in the
    cart are untouched. *)
Theorem completed_sale_deducts_each_line saleId receiptId settings cart
    sellerName buyerName db receipt db' :
  NoDup (CartItem.itemId <$> cart) ->
  handleSubmit saleId receiptId settings cart sellerName buyerName db =
    (SaleComplete receipt, db') ->
  (forall c, c ∈ cart ->
     exists item,
       inventory db !! CartItem.itemId c = Some item /\
       CartItem.quantity c <= InventoryItem.quantity item /\
       inventory db' !! CartItem.itemId c =
         Some (InventoryItem.mk (InventoryItem.id item) (InventoryItem.name item)
                 (InventoryItem.category item) (InventoryItem.unitPrice item)
                 (InventoryItem.quantity item - CartItem.quantity c)
                 (InventoryItem.lowStockThreshold item))) /\
  (forall k, k ∉ CartItem.itemId <$> cart -> inventory db' !! k = inventory db !! k).
Proof.
  intros Hdup Hrun.
  apply handleSubmit_complete_inv in Hrun
    as (_ & _ & _ & _ & _ & _ & db1 & Hloop & _ & ->).
  simpl. by apply deductLoop_lines.
Qed.

Lemma completed_sale_deducts_each_line_witness :
  NoDup (CartItem.itemId <$> [Sample.twoPlugs]) /\
  Sample.completeRun =
    (SaleComplete Sample.completeReceipt,
     mkDatabase (deducted [Sample.twoPlugs] Sample.stock)
       [Sample.completeSale]
       [Sample.completeReceipt]) /\
  (exists item,
     inventory Sample.shop !! "plug" = Some item /\
     2 <= InventoryItem.quantity item /\
     deducted [Sample.twoPlugs] Sample.stock !! "plug" =
       Some (InventoryItem.mk (InventoryItem.id item) (InventoryItem.name item)
               (InventoryItem.category item) (InventoryItem.unitPrice item)
               (InventoryItem.quantity item - 2)
               (InventoryItem.lowStockThreshold item))).
Proof.
  assert (NoDup (CartItem.itemId <$> [Sample.twoPlugs])) as Hdup
    by apply NoDup_singleton.
  assert (Sample.completeRun =
    (SaleComplete Sample.completeReceipt,
     mkDatabase (deducted [Sample.twoPlugs] Sample.stock)
       [Sample.completeSale]
       [Sample.completeReceipt])) as Hrun by (by vm_compute).
  split; [exact Hdup |]. split; [exact Hrun |].
  refine (proj1 (completed_sale_deducts_each_line "s1" "r1" (Some Sample.settings)
                   [Sample.twoPlugs] "  Ada " " Bola" Sample.shop _ _ Hdup Hrun)
            Sample.twoPlugs _).
  by apply list_elem_of_singleton.
Defined.

(** ** Looking a sale up again *)

Lemma list_find_snoc {A} (P : A -> Prop) `{forall x, Decision (P x)} (l : list A) x :
  Forall (fun y => ~ P y) l -> P x ->
  list_find P (l ++ [x]) = Some (length l, x).
Proof.
  intros Hl Hx. apply list_find_Some. split_and!.
  - rewrite lookup_app_r by lia. by rewrite Nat.sub_diag.
  - done.
  - intros j y Hj Hlt. rewrite lookup_app_l in Hj by done.
    eapply Forall_lookup_1 in Hl; done.
Qed.

Lemma fresh_id_Forall {A} (f : A -> string) (l : list A) id :
  id ∉ f <$> l -> Forall (fun y => f y <> id) l.
Proof.
  intros Hfresh. apply Forall_forall. intros y Hy Heq. apply Hfresh.
  apply list_elem_of_fmap. eauto.
Qed.

(** X15: after a completed checkout the receipt page finds what was
    written: [receiptsDB.getById] of the receipt's identifier returns the
    receipt, [salesDB.getById] of the identifier it references returns the
    sale with the same lines, total and names, and, in a well-formed
    store, [receiptsDB.getBySaleId] of that sale returns the receipt. *)
Theorem completed_sale_is_found saleId receiptId settings cart sellerName buyerName
    db receipt db' :
  handleSubmit saleId receiptId settings cart sellerName buyerName db =
    (SaleComplete receipt, db') ->
  receiptsDB.getById (Receipt.id receipt) db' = (Ok (Some receipt), db') /\
  (exists sale,
     salesDB.getById (Receipt.saleId receipt) db' = (Ok (Some sale), db') /\
     Sale.items sale = Receipt.items receipt /\
     Sale.totalAmount sale = Receipt.totalAmount receipt /\
     Sale.sellerName sale = Receipt.sellerName receipt /\
     Sale.buyerName sale = Receipt.buyerName receipt) /\
  (wellFormed db ->
   receiptsDB.getBySaleId (Receipt.saleId receipt) db' = (Ok (Some receipt), db')).
Proof.
  intros Hrun.
  apply handleSubmit_complete_inv in Hrun
    as (_ & _ & _ & Hsale & Hrec & _ & db1 & _ & -> & ->).
  split_and!.
  - unfold receiptsDB.getById. simpl.
    rewrite (list_find_snoc (fun r => Receipt.id r = receiptId)); [done | | done].
    by apply fresh_id_Forall.
  - exists (saleRow saleId cart sellerName buyerName). split; [|done].
    unfold salesDB.getById. simpl.
    rewrite (list_find_snoc (fun s => Sale.id s = saleId)); [done | | done].
    by apply fresh_id_Forall.
  - intros (_ & _ & Hfk & _). unfold receiptsDB.getBySaleId. simpl.
    rewrite filter_app.
    rewrite (receiptsOf_unknown_sale saleId (Sale.id <$> sales db)) by done.
    by rewrite filter_cons_True by done.
Qed.

Lemma completed_sale_is_found_witness :
  Sample.completeRun =
    (SaleComplete Sample.completeReceipt,
     mkDatabase (deducted [Sample.twoPlugs] Sample.stock)
       [Sample.completeSale]
       [Sample.completeReceipt]) /\
  receiptsDB.getById "r1"
    (mkDatabase (deducted [Sample.twoPlugs] Sample.stock)
       [Sample.completeSale]
       [Sample.completeReceipt]) =
    (Ok (Some Sample.completeReceipt),
     mkDatabase (deducted [Sample.twoPlugs] Sample.stock)
       [Sample.completeSale]
       [Sample.completeReceipt]).
Proof.
  assert (Sample.completeRun =
    (SaleComplete Sample.completeReceipt,
     mkDatabase (deducted [Sample.twoPlugs] Sample.stock)
       [Sample.completeSale]
       [Sample.completeReceipt])) as Hrun by (by vm_compute).
  split; [exact Hrun |].
  exact (proj1 (completed_sale_is_found "s1" "r1" (Some Sample.settings)
                  [Sample.twoPlugs] "  Ada " " Bola" Sample.shop _ _ Hrun)).
Defined.

(** ** When an insert fails *)

(** X16: when every line is deducted and the sale insert then fails (its
    identifier is taken), the attempt ends on 'Failed to complete sale'
    with the deductions left in the store and neither a sale nor a receipt
    written: the [catch] branch gives nothing back. *)
Theorem sale_insert_failure_keeps_deductions saleId receiptId settings cart
    sellerName buyerName db db1 :
  length cart <> 0%nat ->
  trim sellerName <> EmptyString ->
  trim buyerName <> EmptyString ->
  deductLoop cart db = (Ok None, db1) ->
  saleId ∈ Sale.id <$> sales db ->
  handleSubmit saleId receiptId settings cart sellerName buyerName db =
    (FailedToCompleteSale,
     mkDatabase (deducted cart (inventory db)) (sales db) (receipts db)).
Proof.
  intros Hlen Hs Hb Hloop Htaken.
  rewrite (handleSubmit_sale_id_taken _ _ _ _ _ _ _ Hlen Hs Hb _ Hloop Htaken).
  destruct (deductLoop_total cart db) as (r & d & Hloop' & Hsales & Hreceipts).
  rewrite Hloop in Hloop'. injection Hloop' as <- <-.
  apply deductLoop_granted in Hloop.
  destruct db1 as [inv1 s1 r1]. simpl in *. by subst.
Qed.

Lemma sale_insert_failure_keeps_deductions_witness :
  length [Sample.twoPlugs] <> 0%nat /\
  trim "Ada" <> EmptyString /\ trim "Bola" <> EmptyString /\
  deductLoop [Sample.twoPlugs] SampleReceipts.sold =
    (Ok None,
     mkDatabase (deducted [Sample.twoPlugs] Sample.stock) [SampleReceipts.sale] []) /\
  "s1" ∈ Sale.id <$> sales SampleReceipts.sold /\
  handleSubmit "s1" "r1" None [Sample.twoPlugs] "Ada" "Bola" SampleReceipts.sold =
    (FailedToCompleteSale,
     mkDatabase (deducted [Sample.twoPlugs] Sample.stock) [SampleReceipts.sale] []).
Proof.
  assert (deductLoop [Sample.twoPlugs] SampleReceipts.sold =
    (Ok None,
     mkDatabase (deducted [Sample.twoPlugs] Sample.stock) [SampleReceipts.sale] []))
    as Hloop by (by vm_compute).
  assert ("s1" ∈ Sale.id <$> sales SampleReceipts.sold) as Htaken
    by (by apply list_elem_of_singleton).
  split; [done |]. split; [done |]. split; [done |]. split; [exact Hloop |].
  split; [exact Htaken |].
  exact (sale_insert_failure_keeps_deductions "s1" "r1" None [Sample.twoPlugs]
           "Ada" "Bola" SampleReceipts.sold _ ltac:(done) ltac:(done) ltac:(done)
           Hloop Htaken).
Defined.

(** X17: when the sale is inserted (its total is a finite number, its
    identifier unused) and the receipt insert then fails (its identifier
    is taken), the attempt ends on 'Failed to complete sale' with the
    stock deducted and the sale in the store without a receipt: in a
    well-formed store [getBySaleId] finds none for it.  Creating the
    receipt again under an unused identifier, with a total that is a
    finite number, then succeeds, and [getBySaleId] returns that
    receipt. *)
Theorem receipt_insert_failure_leaves_sale saleId receiptId retryId settings cart
    sellerName buyerName db db1 request :
  length cart <> 0%nat ->
  trim sellerName <> EmptyString ->
  trim buyerName <> EmptyString ->
  deductLoop cart db = (Ok None, db1) ->
  Number.isFinite (totalAmount cart) = true ->
  wellFormed db ->
  saleId ∉ Sale.id <$> sales db ->
  receiptId ∈ Receipt.id <$> receipts db ->
  retryId ∉ Receipt.id <$> receipts db ->
  NewReceipt.saleId request = saleId ->
  Number.isFinite (NewReceipt.totalAmount request) = true ->
  exists db' retried db'',
    handleSubmit saleId receiptId settings cart sellerName buyerName db =
      (FailedToCompleteSale, db') /\
    inventory db' = deducted cart (inventory db) /\
    sales db' = sales db ++ [saleRow saleId cart sellerName buyerName] /\
    receipts db' = receipts db /\
    receiptsDB.getBySaleId saleId db' = (Ok None, db') /\
    receiptsDB.add retryId request db' = (Ok retried, db'') /\
    receiptsDB.getBySaleId saleId db'' = (Ok (Some retried), db'').
Proof.
  intros Hlen Hs Hb Hloop Hfin (_ & _ & Hfk & _) Hsale Htaken Hretry Hreq Hfin'.
  eexists _, _, _. split.
  { by apply (handleSubmit_receipt_id_taken _ _ _ _ _ _ _ Hlen Hs Hb _ Hloop). }
  assert (filter (fun r => Receipt.saleId r = saleId) (receipts db) = []) as Hnone
    by by apply (receiptsOf_unknown_sale saleId (Sale.id <$> sales db)).
  simpl. split_and!; try done.
  - by apply deductLoop_granted.
  - unfold receiptsDB.getBySaleId. simpl. by rewrite Hnone.
  - rewrite receiptsDB_add_accepted; [reflexivity | done | done |].
    simpl. rewrite Hreq, fmap_app, elem_of_app. right.
    by apply list_elem_of_singleton.
  - unfold receiptsDB.getBySaleId. simpl. rewrite filter_app, Hnone.
    by rewrite filter_cons_True by done.
Qed.

Lemma SampleReceipts_settled_wellFormed : wellFormed SampleReceipts.settled.
Proof.
  split_and!.
  - apply NoDup_singleton.
  - apply NoDup_singleton.
  - intros r ->%list_elem_of_singleton. by apply list_elem_of_singleton.
  - exact (proj2 (proj2 (proj2 (proj1 Sample_shop_wellFormed)))).
Qed.

Lemma receipt_insert_failure_leaves_sale_witness :
  length [Sample.twoPlugs] <> 0%nat /\
  trim "Chi" <> EmptyString /\ trim "Dayo" <> EmptyString /\
  deductLoop [Sample.twoPlugs] SampleReceipts.settled =
    (Ok None,
     mkDatabase (deducted [Sample.twoPlugs] Sample.stock)
       [SampleReceipts.sale] [SampleReceipts.first]) /\
  Number.isFinite (totalAmount [Sample.twoPlugs]) = true /\
  wellFormed SampleReceipts.settled /\
  ("s2" ∉ Sale.id <$> sales SampleReceipts.settled) /\
  "r1" ∈ Receipt.id <$> receipts SampleReceipts.settled /\
  ("r2" ∉ Receipt.id <$> receipts SampleReceipts.settled) /\
  NewReceipt.saleId SampleReceipts.requestForSecond = "s2" /\
  Number.isFinite (NewReceipt.totalAmount SampleReceipts.requestForSecond) = true /\
  exists db' retried db'',
    handleSubmit "s2" "r1" None [Sample.twoPlugs] "Chi" "Dayo" SampleReceipts.settled =
      (FailedToCompleteSale, db') /\
    receiptsDB.getBySaleId "s2" db' = (Ok None, db') /\
    receiptsDB.add "r2" SampleReceipts.requestForSecond db' = (Ok retried, db'') /\
    receiptsDB.getBySaleId "s2" db'' = (Ok (Some retried), db'').
Proof.
  assert (deductLoop [Sample.twoPlugs] SampleReceipts.settled =
    (Ok None,
     mkDatabase (deducted [Sample.twoPlugs] Sample.stock)
       [SampleReceipts.sale] [SampleReceipts.first])) as Hloop by (by vm_compute).
  assert ("s2" ∉ Sale.id <$> sales SampleReceipts.settled) as Hsale
    by (intros Hin%list_elem_of_singleton; discriminate).
  assert ("r1" ∈ Receipt.id <$> receipts SampleReceipts.settled) as Htaken
    by (by apply list_elem_of_singleton).
  assert ("r2" ∉ Receipt.id <$> receipts SampleReceipts.settled) as Hretry
    by (intros Hin%list_elem_of_singleton; discriminate).
  split; [done |]. split; [done |]. split; [done |]. split; [exact Hloop |].
  split; [reflexivity |].
  split; [exact SampleReceipts_settled_wellFormed |]. split; [exact Hsale |].
  split; [exact Htaken |]. split; [exact Hretry |]. split; [reflexivity |].
  split; [reflexivity |].
  destruct (receipt_insert_failure_leaves_sale "s2" "r1" "r2" None [Sample.twoPlugs]
              "Chi" "Dayo" SampleReceipts.settled _ SampleReceipts.requestForSecond
              ltac:(done) ltac:(done) ltac:(done) Hloop eq_refl
              SampleReceipts_settled_wellFormed Hsale Htaken Hretry eq_refl eq_refl)
    as (db' & retried & db'' & Hrun & _ & _ & _ & Hnone & Hadd & Hfound).
  by exists db', retried, db''.
Defined.

(** X28: a total that is not a finite number fails the sale after the
    stock is gone: [JSON.stringify] writes such a total as [null], the
    store refuses it for the NOT NULL column, and the attempt ends on
    'Failed to complete sale' with every line deducted and neither a sale
    nor a receipt written. *)
Theorem sale_total_not_finite_fails saleId receiptId settings cart
    sellerName buyerName db db1 :
  length cart <> 0%nat ->
  trim sellerName <> EmptyString ->
  trim buyerName <> EmptyString ->
  deductLoop cart db = (Ok None, db1) ->
  Number.isFinite (totalAmount cart) = false ->
  salesDB.add saleId
    (NewSale.mk (saleItems cart) (totalAmount cart) (trim sellerName) (trim buyerName))
    db1 = (Throw NotNullViolation, db1) /\
  handleSubmit saleId receiptId settings cart sellerName buyerName db =
    (FailedToCompleteSale,
     mkDatabase (deducted cart (inventory db)) (sales db) (receipts db)).
Proof.
  intros Hlen Hs Hb Hloop Hinf. split.
  { unfold salesDB.add, Number.toJSON. simpl. by rewrite Hinf. }
  rewrite (handleSubmit_total_not_finite _ _ _ _ _ _ _ Hlen Hs Hb _ Hloop Hinf).
  destruct (deductLoop_total cart db) as (r & d & Hloop' & Hsales & Hreceipts).
  rewrite Hloop in Hloop'. injection Hloop' as <- <-.
  apply deductLoop_granted in Hloop.
  destruct db1 as [inv1 s1 r1]. simpl in *. by subst.
Qed.

Lemma sale_total_not_finite_fails_witness :
  fst (addToCart [SampleOverflow.ingot] "ingot" 2 []) = SampleOverflow.cart /\
  length SampleOverflow.cart <> 0%nat /\
  trim "Ada" <> EmptyString /\ trim "Bola" <> EmptyString /\
  deductLoop SampleOverflow.cart SampleOverflow.shop =
    (Ok None,
     mkDatabase (deducted SampleOverflow.cart (inventory SampleOverflow.shop)) [] []) /\
  Number.isFinite (totalAmount SampleOverflow.cart) = false /\
  handleSubmit "s1" "r1" None SampleOverflow.cart "Ada" "Bola" SampleOverflow.shop =
    (FailedToCompleteSale,
     mkDatabase (deducted SampleOverflow.cart (inventory SampleOverflow.shop)) [] []).
Proof.
  assert (deductLoop SampleOverflow.cart SampleOverflow.shop =
    (Ok None,
     mkDatabase (deducted SampleOverflow.cart (inventory SampleOverflow.shop)) [] []))
    as Hloop by (by vm_compute).
  assert (Number.isFinite (totalAmount SampleOverflow.cart) = false) as Hinf
    by reflexivity.
  split; [reflexivity |]. split; [done |]. split; [done |]. split; [done |].
  split; [exact Hloop |]. split; [exact Hinf |].
  exact (proj2 (sale_total_not_finite_fails "s1" "r1" None SampleOverflow.cart
                  "Ada" "Bola" SampleOverflow.shop _ ltac:(done) ltac:(done)
                  ltac:(done) Hloop Hinf)).
Defined.

(** ** Deductions in turn *)



(** ** A cart whose snapshot still holds *)

Lemma deductLoop_all_granted cart db :
  NoDup (CartItem.itemId <$> cart) ->
  (forall c, c ∈ cart ->
     exists item,
       inventory db !! CartItem.itemId c = Some item /\
       CartItem.quantity c <= InventoryItem.quantity item) ->
  exists db1, deductLoop cart db = (Ok None, db1).
Proof.
  revert db. induction cart as [|x rest IH]; intros db Hdup Hstock.
  - by exists db.
  - rewrite fmap_cons in Hdup. apply NoDup_cons in Hdup as [Hx Hdup].
    rewrite deductLoop_cons.
    destruct (Hstock x) as (item & Hitem & Hle); [by apply elem_of_cons; left |].
    rewrite (deductStock_granted _ _ _ _ Hitem Hle). cbv zeta.
    apply IH; [done |]. intros c Hc.
    destruct (Hstock c) as (itemC & HitemC & HleC); [by apply elem_of_cons; right |].
    exists itemC. split; [|done]. simpl. rewrite lookup_insert_ne; [done |].
    intros Heq. apply Hx. rewrite Heq. apply list_elem_of_fmap. eauto.
Qed.

(** X19: the cart's own checks are enough when its snapshot still holds:
    for a non-empty cart built by the cart operations, names that are not
    blank, unused identifiers, a store that still holds, for each line, at
    least the availability recorded on it, and a cart value that is a
    finite number, the checkout completes; the receipt's total is the
    cart's value (the products of quantity and unit price, added from left
    to right) as the store read it. *)
Theorem fresh_cart_checks_out saleId receiptId settings cart sellerName buyerName db :
  CartReachable cart ->
  cart <> [] ->
  trim sellerName <> EmptyString ->
  trim buyerName <> EmptyString ->
  saleId ∉ Sale.id <$> sales db ->
  receiptId ∉ Receipt.id <$> receipts db ->
  (forall c, c ∈ cart ->
     exists item,
       inventory db !! CartItem.itemId c = Some item /\
       CartItem.availableQty c <= InventoryItem.quantity item) ->
  Number.isFinite (cartValue cart) = true ->
  exists receipt db',
    handleSubmit saleId receiptId settings cart sellerName buyerName db =
      (SaleComplete receipt, db') /\
    Receipt.totalAmount receipt = Number.stored (cartValue cart).
Proof.
  intros Hcart Hne Hs Hb Hsale Hrec Hstock Hfin.
  destruct (CartReachable_invariant cart Hcart) as [Hdup Hbound].
  pose proof (totalAmount_cartValue cart (CartReachable_rounded cart Hcart)) as Htotal.
  assert (length cart <> 0%nat) as Hlen by (by destruct cart).
  destruct (deductLoop_all_granted cart db Hdup) as (db1 & Hloop).
  { intros c Hc. destruct (Hstock c Hc) as (item & Hitem & Hle).
    exists item. split; [done |].
    eapply Forall_forall in Hbound; [|done]. unfold cartLineBounded in Hbound. lia. }
  rewrite <- Htotal in Hfin |- *.
  eexists _, _. split.
  - by apply (handleSubmit_complete _ _ _ _ _ _ _ Hlen Hs Hb _ Hloop).
  - done.
Qed.

Lemma fresh_cart_checks_out_witness :
  CartReachable SampleFractions.cart /\
  SampleFractions.cart <> [] /\
  trim "Ada" <> EmptyString /\ trim "Bola" <> EmptyString /\
  ("s1" ∉ Sale.id <$> sales SampleFractions.shop) /\
  ("r1" ∉ Receipt.id <$> receipts SampleFractions.shop) /\
  Number.isFinite (cartValue SampleFractions.cart) = true /\
  exists receipt db',
    handleSubmit "s1" "r1" None SampleFractions.cart "Ada" "Bola" SampleFractions.shop =
      (SaleComplete receipt, db') /\
    Receipt.totalAmount receipt = Number.stored (cartValue SampleFractions.cart).
Proof.
  assert (CartReachable SampleFractions.cart) as Hcart.
  { change SampleFractions.cart
      with (fst (addToCart SampleFractions.items "grease" 1
                   (fst (addToCart SampleFractions.items "oil" 3 [])))).
    apply reach_add, reach_add, reach_empty. }
  assert ("s1" ∉ Sale.id <$> sales SampleFractions.shop) as Hsale
    by apply not_elem_of_nil.
  assert ("r1" ∉ Receipt.id <$> receipts SampleFractions.shop) as Hrec
    by apply not_elem_of_nil.
  assert (Number.isFinite (cartValue SampleFractions.cart) = true) as Hfin
    by reflexivity.
  split; [exact Hcart |]. split; [done |]. split; [done |]. split; [done |].
  split; [exact Hsale |]. split; [exact Hrec |]. split; [exact Hfin |].
  apply (fresh_cart_checks_out "s1" "r1" None SampleFractions.cart "Ada" "Bola"
           SampleFractions.shop Hcart); try done.
  intros c Hc. apply elem_of_cons in Hc as [->|Hc].
  { exists SampleFractions.oil. split; [reflexivity | by vm_compute]. }
  apply list_elem_of_singleton in Hc as ->.
  exists SampleFractions.grease. split; [reflexivity | by vm_compute].
Defined.

(** ** Settings *)

(** X20: a PIN that is set is the PIN that is verified: on a settings row
    that exists, after [setPin pin] the check accepts [pin], and accepts
    another PIN only if it has the same digest.  Without a settings row
    [setPin] stores nothing, and the check rejects the PIN just set. *)
Theorem setPin_verifyPin (hashPin : string -> string) pin other table :
  hashPin pin <> EmptyString ->
  (is_Some table ->
   settingsDB.verifyPin hashPin pin (settingsDB.setPin hashPin pin table) = true /\
   (settingsDB.verifyPin hashPin other (settingsDB.setPin hashPin pin table) = true <->
    hashPin other = hashPin pin)) /\
  (table = None ->
   settingsDB.setPin hashPin pin table = None /\
   settingsDB.verifyPin hashPin pin (settingsDB.setPin hashPin pin table) = false).
Proof.
  intros Hhash. split.
  - intros [row ->]. unfold settingsDB.verifyPin, settingsDB.setPin, settingsDB.get.
    simpl. destruct (decide (hashPin pin = EmptyString)) as [|_]; [done |]. split.
    + by apply bool_decide_eq_true.
    + apply bool_decide_eq_true.
  - by intros ->.
Qed.

Lemma setPin_verifyPin_witness :
  SampleSettings.digest "2580" <> EmptyString /\
  is_Some (Some SampleSettings.migrated) /\
  settingsDB.verifyPin SampleSettings.digest "2580"
    (settingsDB.setPin SampleSettings.digest "2580" (Some SampleSettings.migrated))
    = true.
Proof.
  assert (SampleSettings.digest "2580" <> EmptyString) as Hhash by discriminate.
  assert (is_Some (Some SampleSettings.migrated)) as Hrow by (by eexists).
  split; [exact Hhash |]. split; [exact Hrow |].
  exact (proj1 (proj1 (setPin_verifyPin SampleSettings.digest "2580" "2580"
                         (Some SampleSettings.migrated) Hhash) Hrow)).
Defined.

(** X21: the settings writes keep to their columns: changing the business
    name, the address or both changes nothing in what PIN is accepted, and
    setting a PIN changes neither the business name nor the address. *)
Theorem settings_updates_keep_other_columns (hashPin : string -> string)
    pin newPin name address table :
  settingsDB.verifyPin hashPin pin (settingsDB.updateBusinessName name table) =
    settingsDB.verifyPin hashPin pin table /\
  settingsDB.verifyPin hashPin pin (settingsDB.updateBusinessAddress address table) =
    settingsDB.verifyPin hashPin pin table /\
  settingsDB.verifyPin hashPin pin (settingsDB.updateBusinessInfo name address table) =
    settingsDB.verifyPin hashPin pin table /\
  AppSettings.businessName <$> settingsDB.setPin hashPin newPin table =
    AppSettings.businessName <$> table /\
  AppSettings.businessAddress <$> settingsDB.setPin hashPin newPin table =
    AppSettings.businessAddress <$> table /\
  AppSettings.businessAddress <$> settingsDB.updateBusinessName name table =
    AppSettings.businessAddress <$> table /\
  AppSettings.businessName <$> settingsDB.updateBusinessAddress address table =
    AppSettings.businessName <$> table.
Proof. by destruct table as [row|]. Qed.

(** X22: what [refreshSettings] publishes.  When the store answers, a row
    that exists is published as it is, the table untouched and its PIN not
    reset; a missing row is created with the default names and the default
    PIN, which the check then accepts, and the PIN counts as set up.  When
    the store does not answer, nothing is published (the context keeps
    what it had: no settings, on first load) and the table is as it
    was. *)
Theorem refreshSettings_settings (hashPin : string -> string) table :
  hashPin DEFAULT_PIN <> EmptyString ->
  (forall row,
     table = Some row ->
     refreshSettings hashPin true table = (Some (row, hasPin row), table)) /\
  (table = None ->
   exists row,
     refreshSettings hashPin true table = (Some (row, true), Some row) /\
     AppSettings.businessName row = "Nigro Automobiles" /\
     AppSettings.businessAddress row = "56 Iwofe Road, Rumuopirikom, PHC" /\
     settingsDB.verifyPin hashPin "159874" (Some row) = true) /\
  refreshSettings hashPin false table = (None, table).
Proof.
  intros Hhash. split_and!.
  - by intros row ->.
  - intros ->.
    exists (AppSettings.mk "main" (Some (hashPin DEFAULT_PIN)) DEFAULT_BUSINESS_NAME
              DEFAULT_BUSINESS_ADDRESS).
    split_and!.
    + unfold refreshSettings, hasPin. simpl. by rewrite bool_decide_eq_false_2.
    + reflexivity.
    + reflexivity.
    + unfold settingsDB.verifyPin, settingsDB.get. cbn.
      case_decide; [done |]. by apply bool_decide_eq_true.
  - reflexivity.
Qed.

Lemma refreshSettings_settings_witness :
  SampleSettings.digest DEFAULT_PIN <> EmptyString /\
  exists row,
    refreshSettings SampleSettings.digest true None = (Some (row, true), Some row) /\
    AppSettings.businessName row = "Nigro Automobiles" /\
    settingsDB.verifyPin SampleSettings.digest "159874" (Some row) = true.
Proof.
  assert (SampleSettings.digest DEFAULT_PIN <> EmptyString) as Hhash by discriminate.
  split; [exact Hhash |].
  destruct (proj1 (proj2 (refreshSettings_settings SampleSettings.digest None Hhash))
              eq_refl)
    as (row & Hrun & Hname & _ & Hpin).
  by exists row.
Defined.

(** X23: a business name saved on the settings page is the name on the
    receipts that follow: with a settings row in the table, a name that is
    not blank and a store that answers the refresh,
    [handleSaveBusinessName] stores the trimmed name, keeps the PIN and
    the address, and republishes the settings; every checkout that then
    completes with those settings writes a receipt that carries the
    trimmed name.  When the store does not answer the refresh, the name is
    stored and reported as saved all the same, but the page keeps the
    settings it had.  A blank name is refused and nothing changes. *)
Theorem saved_business_name_is_on_receipts (hashPin : string -> string)
    businessName settings row :
  (trim businessName <> EmptyString ->
   exists settings',
     handleSaveBusinessName hashPin true businessName settings (Some row) =
       (BusinessNameSaved, Some settings', Some settings') /\
     handleSaveBusinessName hashPin false businessName settings (Some row) =
       (BusinessNameSaved, settings, Some settings') /\
     settings' =
       AppSettings.mk (AppSettings.id row) (AppSettings.pinHash row)
         (trim businessName) (AppSettings.businessAddress row) /\
     forall saleId receiptId cart sellerName buyerName db receipt db',
       handleSubmit saleId receiptId (Some settings') cart sellerName buyerName db =
         (SaleComplete receipt, db') ->
       Receipt.businessName receipt = trim businessName) /\
  (forall answered,
     trim businessName = EmptyString ->
     handleSaveBusinessName hashPin answered businessName settings (Some row) =
       (BusinessNameEmpty, settings, Some row)).
Proof.
  split.
  - intros Hname.
    exists (AppSettings.mk (AppSettings.id row) (AppSettings.pinHash row)
              (trim businessName) (AppSettings.businessAddress row)).
    unfold handleSaveBusinessName. rewrite !decide_False by done. simpl.
    split_and!; [done | done | done |].
    intros saleId receiptId cart sellerName buyerName db receipt db' Hrun.
    apply handleSubmit_complete_inv in Hrun
      as (_ & _ & _ & _ & _ & _ & db1 & _ & -> & _).
    simpl. by rewrite decide_False.
  - intros answered Hblank. unfold handleSaveBusinessName. by rewrite decide_True.
Qed.

Lemma saved_business_name_is_on_receipts_witness :
  trim " Keke Parts " <> EmptyString /\
  exists settings',
    handleSaveBusinessName SampleSettings.digest true " Keke Parts " None
      (Some SampleSettings.migrated) =
      (BusinessNameSaved, Some settings', Some settings') /\
    AppSettings.businessName settings' = "Keke Parts" /\
    fst (handleSubmit "s1" "r1" (Some settings') [Sample.twoPlugs] "Ada" "Bola"
           Sample.shop) =
      SaleComplete
        (Receipt.mk "r1" "s1" "Keke Parts" "56 Iwofe Road, Rumuopirikom, PHC"
           [Sample.soldPlugs] (Number.ofZ 200) "Ada" "Bola").
Proof.
  assert (trim " Keke Parts " <> EmptyString) as Hname by discriminate.
  split; [exact Hname |].
  destruct (proj1 (saved_business_name_is_on_receipts SampleSettings.digest
                     " Keke Parts " None SampleSettings.migrated) Hname)
    as (settings' & Hsave & _ & -> & _).
  eexists. split; [exact Hsave |]. split; by vm_compute.
Defined.

(** ** What every store call keeps *)

(** X24: each writing call of the data layer, whether it succeeds or
    fails, keeps the store well formed: identifiers stay keys, receipts
    keep referencing sales that exist, inventory rows stay under their own
    identifier. *)
Theorem store_calls_keep_wellFormed db :
  wellFormed db ->
  (forall id item, wellFormed (snd (inventoryDB.add id item db))) /\
  (forall id updates, wellFormed (snd (inventoryDB.update id updates db))) /\
  (forall id, wellFormed (snd (inventoryDB.delete id db))) /\
  (forall id quantity, wellFormed (snd (inventoryDB.deductStock id quantity db))) /\
  (forall id sale, wellFormed (snd (salesDB.add id sale db))) /\
  (forall id receipt, wellFormed (snd (receiptsDB.add id receipt db))).
Proof.
  intros Hwf. pose proof Hwf as (Hs & Hr & Hfk & Hkey). split_and!.
  - intros id item. unfold inventoryDB.add.
    destruct (negb _); [done |].
    destruct (Number.toJSON _) as [unit_price|]; [|done].
    destruct (inventory db !! id) eqn:Hid; [done |].
    unfold wellFormed. simpl. split_and!; try done.
    intros k row. destruct (decide (id = k)) as [<-|Hne].
    + rewrite lookup_insert_eq. by intros [= <-].
    + rewrite lookup_insert_ne by done. apply Hkey.
  - intros id updates. unfold inventoryDB.update.
    destruct (inventoryDB.noColumn updates); [done |].
    destruct (negb _); [done |].
    destruct (inventory db !! id) as [row|] eqn:Hid; [|done].
    destruct (negb _); [done |].
    unfold wellFormed. simpl. split_and!; try done.
    intros k row'. destruct (decide (id = k)) as [<-|Hne].
    + rewrite lookup_insert_eq. intros [= <-]. simpl. by apply Hkey.
    + rewrite lookup_insert_ne by done. apply Hkey.
  - intros id. unfold wellFormed. simpl. split_and!; try done.
    intros k row Hrow. apply lookup_delete_Some in Hrow as [_ Hrow]. by apply Hkey.
  - intros id quantity.
    destruct (deductStock_inventory id quantity db)
      as (db1 & result & Hrun & Hsales & Hreceipts & Hshape & _).
    unfold deductStock in Hrun. rewrite Hrun. simpl.
    by apply (wellFormed_inventory db db1).
  - intros id sale. unfold salesDB.add.
    destruct (Number.toJSON _) as [total_amount|]; [|done].
    case_decide as Hid; [done |].
    unfold wellFormed. simpl. split_and!; try done.
    + rewrite fmap_app. apply NoDup_app. split_and!; [done | | apply NoDup_singleton].
      intros x Hx ->%list_elem_of_singleton. done.
    + intros r Hin. rewrite fmap_app, elem_of_app. left. by apply Hfk.
  - intros id receipt. unfold receiptsDB.add.
    destruct (Number.toJSON _) as [total_amount|]; [|done].
    case_decide as Hid; [done |].
    case_decide as Hsale; [|done].
    unfold wellFormed. simpl. split_and!; try done.
    + rewrite fmap_app. apply NoDup_app. split_and!; [done | | apply NoDup_singleton].
      intros x Hx ->%list_elem_of_singleton. done.
    + intros r [Hin | ->%list_elem_of_singleton]%elem_of_app; [by apply Hfk | done].
Qed.

Lemma store_calls_keep_wellFormed_witness :
  wellFormed SampleReceipts.settled /\
  wellFormed (snd (inventoryDB.add "bulb" SampleStock.bulb SampleReceipts.settled)) /\
  wellFormed
    (snd (receiptsDB.add "r2" SampleReceipts.request SampleReceipts.settled)).
Proof.
  pose proof (store_calls_keep_wellFormed SampleReceipts.settled
                SampleReceipts_settled_wellFormed) as (Hadd & _ & _ & _ & _ & Hrec).
  split; [exact SampleReceipts_settled_wellFormed |].
  split; [apply Hadd | apply Hrec].
Defined.

(** ** Two devices, in general *)

Lemma step_keeps_stock call db :
  writeWithinRead call -> stockNotBelowZero db ->
  writeWithinRead (fst (step call db)) /\ stockNotBelowZero (snd (step call db)).
Proof.
  intros Hcall Hstock. destruct call as [id q | id q item | r]; simpl.
  - unfold inventoryDB.getById.
    destruct (inventory db !! id) as [item|] eqn:Hitem; [|done].
    destruct (Z.ltb_spec (InventoryItem.quantity item) q); [done |]. done.
  - unfold inventoryDB.updateQuantity.
    destruct (inventory db !! id) as [row|] eqn:Hrow; [|done]. simpl.
    split; [done |]. intros k row'. simpl.
    destruct (decide (id = k)) as [<-|Hne].
    + rewrite lookup_insert_eq. intros [= <-]. simpl in *. lia.
    + rewrite lookup_insert_ne by done. apply Hstock.
  - done.
Qed.

(** X25: however the steps of two [deductStock] calls interleave, on
    whatever items and for whatever quantities, the store never shows a
    negative quantity: a call only writes the difference between what it
    read and what it asks for, after checking that it is not negative. *)
Theorem interleaved_stock_not_below_zero schedule id1 q1 id2 q2 db :
  stockNotBelowZero db ->
  stockNotBelowZero (snd (run schedule (Reading id1 q1, Reading id2 q2, db))).
Proof.
  intros Hstock.
  assert (forall st,
            writeWithinRead (fst (fst st)) -> writeWithinRead (snd (fst st)) ->
            stockNotBelowZero (snd st) ->
            stockNotBelowZero (snd (run schedule st))) as Hinv.
  { induction schedule as [|b s IH]; intros [[c1 c2] d] H1 H2 Hd; [done |].
    change (run (b :: s) (c1, c2, d)) with (run s (next b (c1, c2, d))).
    simpl in H1, H2, Hd. apply IH; destruct b; simpl.
    - destruct (step c1 d) eqn:Hstep. simpl.
      pose proof (step_keeps_stock c1 d H1 Hd) as [? _]. by rewrite Hstep in *.
    - by destruct (step c2 d).
    - destruct (step c1 d) eqn:Hstep. by simpl.
    - destruct (step c2 d) eqn:Hstep. simpl.
      pose proof (step_keeps_stock c2 d H2 Hd) as [? _]. by rewrite Hstep in *.
    - destruct (step c1 d) eqn:Hstep. simpl.
      pose proof (step_keeps_stock c1 d H1 Hd) as [_ ?]. by rewrite Hstep in *.
    - destruct (step c2 d) eqn:Hstep. simpl.
      pose proof (step_keeps_stock c2 d H2 Hd) as [_ ?]. by rewrite Hstep in *. }
  by apply Hinv.
Qed.

Lemma interleaved_stock_not_below_zero_witness :
  stockNotBelowZero Sample.shop /\
  stockNotBelowZero
    (snd (run [true; false; true; false]
            (Reading "plug" 3, Reading "plug" 4, Sample.shop))).
Proof.
  split; [exact (proj2 Sample_shop_wellFormed) |].
  exact (interleaved_stock_not_below_zero [true; false; true; false] "plug" 3 "plug" 4
           Sample.shop (proj2 Sample_shop_wellFormed)).
Defined.





(** ** Changing the PIN *)

(** X27: the settings page changes the PIN only when it should: a change
    is reported only for a new PIN of four to six characters that equals
    its confirmation, and only when the current PIN was accepted; the new
    PIN is then accepted, and the business name and address are as they
    were, whether or not the store answers the refresh that follows.  In
    every other case the settings table is unchanged. *)
Theorem handleChangePin_changes (hashPin : string -> string) answered
    oldPin newPin confirmPin table :
  hashPin newPin <> EmptyString ->
  (fst (handleChangePin hashPin answered oldPin newPin confirmPin table) = PinChanged ->
   (4 <= String.length newPin <= 6)%nat /\
   newPin = confirmPin /\
   settingsDB.verifyPin hashPin oldPin table = true /\
   settingsDB.verifyPin hashPin newPin
     (snd (handleChangePin hashPin answered oldPin newPin confirmPin table)) = true /\
   AppSettings.businessName
     <$> snd (handleChangePin hashPin answered oldPin newPin confirmPin table) =
     AppSettings.businessName <$> table /\
   AppSettings.businessAddress
     <$> snd (handleChangePin hashPin answered oldPin newPin confirmPin table) =
     AppSettings.businessAddress <$> table) /\
  (fst (handleChangePin hashPin answered oldPin newPin confirmPin table) <> PinChanged ->
   snd (handleChangePin hashPin answered oldPin newPin confirmPin table) = table).
Proof.
  intros Hhash. unfold handleChangePin.
  destruct (Nat.ltb_spec (String.length newPin) 4) as [|Hmin]; [done |].
  destruct (Nat.ltb_spec 6 (String.length newPin)) as [|Hmax]; [done |]. simpl.
  destruct (decide (newPin = confirmPin)) as [<-|]; [|done].
  unfold changePin.
  destruct (settingsDB.verifyPin hashPin oldPin table) eqn:Hold; [|done].
  destruct table as [row|]; [|done].
  assert (snd (refreshSettings hashPin answered
                 (settingsDB.setPin hashPin newPin (Some row))) =
          settingsDB.setPin hashPin newPin (Some row)) as ->
    by (by destruct answered).
  simpl. split; [|done]. intros _.
  split_and!; try done; try lia.
  unfold settingsDB.verifyPin, settingsDB.get. cbn.
  case_decide; [done |]. by apply bool_decide_eq_true.
Qed.

Lemma handleChangePin_changes_witness :
  SampleSettings.digest "2580" <> EmptyString /\
  fst (handleChangePin SampleSettings.digest true "159874" "2580" "2580"
         (snd (refreshSettings SampleSettings.digest true None))) = PinChanged /\
  settingsDB.verifyPin SampleSettings.digest "2580"
    (snd (handleChangePin SampleSettings.digest true "159874" "2580" "2580"
            (snd (refreshSettings SampleSettings.digest true None)))) = true.
Proof.
  assert (SampleSettings.digest "2580" <> EmptyString) as Hhash by discriminate.
  assert (fst (handleChangePin SampleSettings.digest true "159874" "2580" "2580"
                 (snd (refreshSettings SampleSettings.digest true None))) = PinChanged)
    as Hrun by (by vm_compute).
  split; [exact Hhash |]. split; [exact Hrun |].
  destruct (proj1 (handleChangePin_changes SampleSettings.digest true "159874" "2580" "2580"
                     (snd (refreshSettings SampleSettings.digest true None)) Hhash) Hrun)
    as (_ & _ & _ & Hnew & _).
  exact Hnew.
Defined.
